(** * Multi-API monitor with automatic recovery: a shallow embedding

    The development follows the Python sources

      - [config.py]              (service table, monitoring parameters),
      - [api_restart_manager.py] (locate-and-kill, launch, health verification),
      - [multi_api_monitor.py]   (the LangGraph state machine and its driver).

    Every source function is a Rocq function of the same name.  Side effects
    (HTTP requests, the language model, the operator console, mail delivery,
    the process table, process launch, sleeping) are threaded through an
    explicit [World]: the collaborators' answers are oracles of the world and
    every call made is appended to its event log.  A Python exception is the
    [Raise] result of the monad [M]; [try_catch] is [try ... except
    Exception].  Console output ([print]) is not modelled. *)

From Stdlib Require Import ZArith QArith String Ascii List Lia Bool DecimalString.
From stdpp Require Import base option list gmap strings.

Open Scope Z_scope.

(** ** Python values, numbers and exceptions *)

(** A double: a finite one is represented by the rational it denotes.  The
    program only compares doubles with zero and hands them on to [time.sleep]
    and to the request timeout. *)
Inductive pyfloat : Type :=
  | FFin (q : Q)
  | FPosInf
  | FNegInf
  | FNaN.

(** The result of [_to_float(value, default)] is a float on success and the
    (integer) default otherwise, so numeric variables hold either kind. *)
Inductive pynum : Type :=
  | NInt (z : Z)
  | NFloat (f : pyfloat).

(** Values that may sit in the configuration map. [VObj] stands for any object
    that is neither a number nor a string (a list, a dict, ...). *)
Inductive pyval : Type :=
  | VNone
  | VBool (b : bool)
  | VInt (z : Z)
  | VFloat (f : pyfloat)
  | VStr (s : string)
  | VObj.

(** Exception classes that occur.  All of them derive from [Exception].  The
    classes of the collaborators' libraries are kept by name. *)
Inductive exn_class : Type :=
  | IndexError
  | ValueError
  | TypeError
  | OverflowError
  | EOFError
  | GraphRecursionError
  | ConnectionError          (* requests.exceptions.ConnectionError *)
  | LibraryError (name : string).

Record exn : Type := Exn { exn_class_of : exn_class; exn_msg : string }.

(** [str(e)] *)
Definition str_exn (e : exn) : string := exn_msg e.

Inductive result (A : Type) : Type :=
  | Ok (a : A)
  | Raise (e : exn).
Arguments Ok {A} a.
Arguments Raise {A} e.

Definition is_raise {A} (r : result A) : bool :=
  match r with Ok _ => false | Raise _ => true end.

(** [str(n)] for an integer *)
Definition str_int (z : Z) : string := NilZero.string_of_int (Z.to_int z).

(** *** The builtins [int()] and [float()] *)

(** [float(z)] for an integer: round to the nearest double, ties to even;
    [None] is [OverflowError]. *)
Definition round_to_double (z : Z) : option Z :=
  let a := Z.abs z in
  if a <? 2 ^ 53 then Some z
  else
    let e := Z.log2 a - 52 in
    let m := Z.shiftr a e in
    let r := a - Z.shiftl m e in
    let half := Z.shiftl 1 (e - 1) in
    let m' := if r <? half then m
              else if half <? r then m + 1
              else if Z.even m then m else m + 1 in
    let v := Z.shiftl m' e in
    if 2 ^ 1024 <=? v then None else Some (Z.sgn z * v).

(** [int(f)] for a float truncates toward zero. *)
Definition trunc_Q (q : Q) : Z := Z.quot (Qnum q) (Zpos (Qden q)).

Definition bool_to_Z (b : bool) : Z := if b then 1 else 0.

Section Builtins.

(** The two string parsers of the language, [int(s)] and [float(s)] on a
    [str]: [None] when Python raises [ValueError]. *)
Variable int_of_str : string -> option Z.
Variable float_of_str : string -> option pyfloat.

Definition py_int (v : pyval) : result Z :=
  match v with
  | VNone => Raise (Exn TypeError "")
  | VBool b => Ok (bool_to_Z b)
  | VInt z => Ok z
  | VFloat (FFin q) => Ok (trunc_Q q)
  | VFloat FNaN => Raise (Exn ValueError "")
  | VFloat _ => Raise (Exn OverflowError "")
  | VStr s =>
      match int_of_str s with
      | Some z => Ok z
      | None => Raise (Exn ValueError "")
      end
  | VObj => Raise (Exn TypeError "")
  end.

Definition float_of_Z (z : Z) : result pyfloat :=
  match round_to_double z with
  | Some v => Ok (FFin (inject_Z v))
  | None => Raise (Exn OverflowError "")
  end.

Definition py_float (v : pyval) : result pyfloat :=
  match v with
  | VNone => Raise (Exn TypeError "")
  | VBool b => Ok (FFin (inject_Z (bool_to_Z b)))
  | VInt z => float_of_Z z
  | VFloat f => Ok f
  | VStr s =>
      match float_of_str s with
      | Some f => Ok f
      | None => Raise (Exn ValueError "")
      end
  | VObj => Raise (Exn TypeError "")
  end.

End Builtins.

(** Comparisons of a number with zero, as Python evaluates [x < 0] and
    [x <= 0]: every comparison with NaN is false. *)
Definition float_lt0 (f : pyfloat) : bool :=
  match f with
  | FFin q => Qnum q <? 0
  | FNegInf => true
  | FPosInf | FNaN => false
  end.

Definition float_le0 (f : pyfloat) : bool :=
  match f with
  | FFin q => Qnum q <=? 0
  | FNegInf => true
  | FPosInf | FNaN => false
  end.

Definition num_lt0 (x : pynum) : bool :=
  match x with NInt z => z <? 0 | NFloat f => float_lt0 f end.

Definition num_le0 (x : pynum) : bool :=
  match x with NInt z => z <=? 0 | NFloat f => float_le0 f end.

(** ** Strings *)

(** [s.startswith(p)] *)
Fixpoint startswith (p s : string) : bool :=
  match p, s with
  | EmptyString, _ => true
  | String a p', String b s' => if Ascii.eqb a b then startswith p' s' else false
  | String _ _, EmptyString => false
  end.

(** The scan shared by [str.split] and [str.replace] for a non-empty
    separator: occurrences are found left to right and do not overlap.
    [skip] counts the characters of a just-matched separator still to drop;
    [cur] is the segment read so far. *)
Fixpoint split_go (sep s : string) (skip : nat) (cur : string) : list string :=
  match s with
  | EmptyString => [cur]
  | String c s' =>
      match skip with
      | S k => split_go sep s' k cur
      | O =>
          if startswith sep s
          then cur :: split_go sep s' (Nat.pred (String.length sep)) ""
          else split_go sep s' O (cur +:+ String c "")
      end
  end.

(** [s.split(sep)] *)
Definition str_split (sep s : string) : list string := split_go sep s O "".

(** [sep.join(parts)] *)
Fixpoint str_join (sep : string) (parts : list string) : string :=
  match parts with
  | [] => ""
  | [p] => p
  | p :: rest => p +:+ sep +:+ str_join sep rest
  end.

(** [s.replace(old, new)] *)
Definition str_replace (old new s : string) : string :=
  str_join new (str_split old s).

(** Whitespace in the sense of [str.strip()], ASCII range. *)
Definition is_space (c : ascii) : bool :=
  let n := nat_of_ascii c in
  ((9 <=? n)%nat && (n <=? 13)%nat) || ((28 <=? n)%nat && (n <=? 32)%nat).

Fixpoint lstrip (s : string) : string :=
  match s with
  | EmptyString => ""
  | String c s' => if is_space c then lstrip s' else s
  end.

(** [s.strip()] *)
Definition strip (s : string) : string :=
  String.rev (lstrip (String.rev (lstrip s))).

(** [sub in s] *)
Definition contains (sub s : string) : Prop :=
  exists pre post : string, s = pre +:+ sub +:+ post.

Definition nl : string := String "010"%char "".

(** ** The world: collaborators and the record of what was done to them *)

Inductive http_result : Type :=
  | HttpResp (status : Z) (text : string)
  | HttpExn (e : exn).

(** One entry of [proc.connections()]: [laddr] is [None] when the attribute
    is absent, else the local port. *)
Record conn : Type := Conn { laddr : option Z }.

(** One process of [psutil.process_iter]. [connections] is [None] when asking
    for them raises [NoSuchProcess], [AccessDenied] or [ZombieProcess]. *)
Record proc : Type := Proc { pid : Z; connections : option (list conn) }.

Inductive popen_flags : Type :=
  | NewConsoleAndGroup       (* os.name == "nt" *)
  | NewSession.              (* start_new_session=True *)

(** What the language model is asked to draft. The alert prompt carries the
    probe facts, the recovery prompt only the name and port. *)
Inductive prompt : Type :=
  | AlertPrompt (api_name : string) (api_port : Z) (api_url api_status error_details : string)
  | RecoveryPrompt (api_name : string) (api_port : Z).

Inductive event : Type :=
  | EvHttpGet (url : string) (timeout : pynum)
  | EvSleep (secs : pynum)
  | EvLLM (p : prompt)
  | EvMail (body subject : string)
  | EvProcessIter
  | EvKill (pid : Z)
  | EvWait (pid : Z) (timeout : Z)
  | EvPopen (cmd : list string) (flags : popen_flags).

(** The oracles answer the n-th call of their kind; the counters say how many
    calls were made so far; [w_log] lists the calls, newest first. *)
Record World : Type := MkWorld {
  w_http : nat -> string -> http_result;   (* requests.get *)
  w_llm : nat -> result string;            (* llm.invoke(...).content *)
  w_smtp : nat -> option exn;              (* the SMTP exchange; None: delivered *)
  w_procs : nat -> list proc;              (* psutil.process_iter *)
  w_kill : Z -> option exn;                (* proc.kill() *)
  w_wait : Z -> option exn;                (* proc.wait(timeout=5) *)
  w_popen : nat -> list string -> result Z;  (* subprocess.Popen: the child's pid *)
  w_os_nt : bool;                          (* os.name == "nt" *)
  w_executable : string;                   (* sys.executable *)
  w_stdin : list string;                   (* console lines not yet read *)
  n_http : nat;
  n_llm : nat;
  n_smtp : nat;
  n_procs : nat;
  n_popen : nat;
  w_log : list event
}.

Definition with_state (w : World) (stdin : list string)
    (h l s p o : nat) (log : list event) : World :=
  MkWorld (w_http w) (w_llm w) (w_smtp w) (w_procs w) (w_kill w) (w_wait w)
          (w_popen w) (w_os_nt w) (w_executable w) stdin h l s p o log.

Definition emit (ev : event) (w : World) : World :=
  with_state w (w_stdin w) (n_http w) (n_llm w) (n_smtp w) (n_procs w) (n_popen w)
             (ev :: w_log w).

(** *** The monad of effects and exceptions *)

Definition M (A : Type) : Type := World -> result A * World.

Definition ret {A} (a : A) : M A := fun w => (Ok a, w).

Definition raise {A} (e : exn) : M A := fun w => (Raise e, w).

Definition bind {A B} (m : M A) (k : A -> M B) : M B :=
  fun w =>
    match m w with
    | (Ok a, w') => k a w'
    | (Raise e, w') => (Raise e, w')
    end.

(** [try: m  except Exception as e: h e] *)
Definition try_catch {A} (m : M A) (h : exn -> M A) : M A :=
  fun w =>
    match m w with
    | (Ok a, w') => (Ok a, w')
    | (Raise e, w') => h e w'
    end.

Definition lift_result {A} (r : result A) : M A :=
  match r with Ok a => ret a | Raise e => raise e end.

Notation "x <- m ;; k" := (bind m (fun x => k))
  (at level 100, m at next level, right associativity).
Notation "m ;;; k" := (bind m (fun _ => k))
  (at level 100, right associativity).

(** *** The collaborators' calls *)

(** [requests.get(url, timeout=timeout)]: status code and body text. *)
Definition requests_get (url : string) (timeout : pynum) : M (Z * string) :=
  fun w =>
    let w' := emit (EvHttpGet url timeout)
                (with_state w (w_stdin w) (S (n_http w)) (n_llm w) (n_smtp w)
                   (n_procs w) (n_popen w) (w_log w)) in
    match w_http w (n_http w) url with
    | HttpResp status text => (Ok (status, text), w')
    | HttpExn e => (Raise e, w')
    end.

(** The largest number of nanoseconds [time.sleep] accepts. *)
Definition PY_TIME_MAX : Z := 2 ^ 63 - 1.

(** [time.sleep(secs)] refuses NaN and negative lengths with [ValueError] and
    lengths that do not fit its clock with [OverflowError]. *)
Definition sleep_check (secs : pynum) : option exn :=
  match secs with
  | NInt z =>
      if PY_TIME_MAX <? Z.abs z * 10 ^ 9 then Some (Exn OverflowError "")
      else if z <? 0 then Some (Exn ValueError "") else None
  | NFloat FNaN => Some (Exn ValueError "")
  | NFloat FPosInf | NFloat FNegInf => Some (Exn OverflowError "")
  | NFloat (FFin q) =>
      if Zpos (Qden q) * PY_TIME_MAX <? Z.abs (Qnum q) * 10 ^ 9
      then Some (Exn OverflowError "")
      else if Qnum q <? 0 then Some (Exn ValueError "") else None
  end.

Definition time_sleep (secs : pynum) : M unit :=
  fun w =>
    match sleep_check secs with
    | Some e => (Raise e, w)
    | None => (Ok tt, emit (EvSleep secs) w)
    end.

(** [llm.invoke(messages).content] *)
Definition llm_invoke (p : prompt) : M string :=
  fun w =>
    (w_llm w (n_llm w),
     emit (EvLLM p)
       (with_state w (w_stdin w) (n_http w) (S (n_llm w)) (n_smtp w)
          (n_procs w) (n_popen w) (w_log w))).

(** [email_webhook.send_email_alert(message, subject)]: builds the message
    and hands it to the SMTP server; any failure of the exchange is raised. *)
Definition send_email_alert (message subject : string) : M unit :=
  fun w =>
    let w' := emit (EvMail message subject)
                (with_state w (w_stdin w) (n_http w) (n_llm w) (S (n_smtp w))
                   (n_procs w) (n_popen w) (w_log w)) in
    match w_smtp w (n_smtp w) with
    | None => (Ok tt, w')
    | Some e => (Raise e, w')
    end.

(** [psutil.process_iter(['pid', 'name'])] *)
Definition process_iter : M (list proc) :=
  fun w =>
    (Ok (w_procs w (n_procs w)),
     emit EvProcessIter
       (with_state w (w_stdin w) (n_http w) (n_llm w) (n_smtp w)
          (S (n_procs w)) (n_popen w) (w_log w))).

(** [proc.kill()] *)
Definition proc_kill (p : proc) : M unit :=
  fun w =>
    match w_kill w (pid p) with
    | None => (Ok tt, emit (EvKill (pid p)) w)
    | Some e => (Raise e, emit (EvKill (pid p)) w)
    end.

(** [proc.wait(timeout=t)] *)
Definition proc_wait (p : proc) (t : Z) : M unit :=
  fun w =>
    match w_wait w (pid p) with
    | None => (Ok tt, emit (EvWait (pid p) t) w)
    | Some e => (Raise e, emit (EvWait (pid p) t) w)
    end.

(** [subprocess.Popen(cmd, cwd=SCRIPT_DIR, stdout=DEVNULL, stderr=DEVNULL, ...)] *)
Definition popen (cmd : list string) (flags : popen_flags) : M Z :=
  fun w =>
    (w_popen w (n_popen w) cmd,
     emit (EvPopen cmd flags)
       (with_state w (w_stdin w) (n_http w) (n_llm w) (n_smtp w)
          (n_procs w) (S (n_popen w)) (w_log w))).

(** [sys.executable] *)
Definition sys_executable : M string := fun w => (Ok (w_executable w), w).

(** [os.name == "nt"] *)
Definition os_name_is_nt : M bool := fun w => (Ok (w_os_nt w), w).

(** ** config.py *)

Record service_config : Type := ServiceConfig {
  port : Z;
  health_url : string;
  test_url : string;
  app_module : string
}.

(** A dict in insertion order; [dict_get] is [d.get(key)]. *)
Fixpoint dict_get {V} (d : list (string * V)) (key : string) : option V :=
  match d with
  | [] => None
  | (k, v) :: rest => if String.eqb k key then Some v else dict_get rest key
  end.

Definition API_SERVICES_default : list (string * service_config) :=
  [ ("Multiply API",
     ServiceConfig 8001 "http://localhost:8001/health"
       "http://localhost:8001/multiply?a=5&b=3" "multiply_app:app");
    ("Addition API",
     ServiceConfig 8002 "http://localhost:8002/health"
       "http://localhost:8002/addition?a=10&b=5" "addition_app:app");
    ("Division API",
     ServiceConfig 8003 "http://localhost:8003/health"
       "http://localhost:8003/division?a=20&b=4" "division_app:app") ].

(** [d.setdefault(key, value)] *)
Definition setdefault (key : string) (value : pyval) (d : gmap string pyval)
    : gmap string pyval :=
  match d !! key with
  | Some _ => d
  | None => <[key := value]> d
  end.

Definition MONITORING_CONFIG_default : gmap string pyval :=
  setdefault "check_interval" (VInt 15)
    (setdefault "restart_delay" (VInt 30)
      (setdefault "health_check_timeout" (VInt 5)
        (setdefault "health_check_wait" (VInt 3)
          (setdefault "health_check_attempts" (VInt 10)
            (<["check_interval" := VInt 15]>
              (<["restart_delay" := VInt 30]>
                (<["max_restart_attempts" := VInt 3]>
                  (<["health_check_attempts" := VInt 10]>
                    (<["health_check_wait" := VInt 3]>
                      (<["health_check_timeout" := VInt 5]> ∅)))))))))).

(** ** Sample collaborators

    Concrete parsers, worlds and configurations on which the examples at the
    end of the file run the program. *)

Definition digit_value (c : ascii) : option Z :=
  let n := nat_of_ascii c in
  if ((48 <=? n)%nat && (n <=? 57)%nat)%bool then Some (Z.of_nat n - 48) else None.

Fixpoint digits_value (acc : Z) (s : string) : option Z :=
  match s with
  | EmptyString => Some acc
  | String c s' =>
      match digit_value c with
      | Some d => digits_value (10 * acc + d) s'
      | None => None
      end
  end.

(** [int(s)] restricted to what the examples feed it: a plain run of decimal
    digits is read, a string holding any other character is rejected. *)
Definition sample_int_of_str (s : string) : option Z :=
  match s with
  | EmptyString => None
  | _ => digits_value 0 s
  end.

(** [float(s)] on the same strings. *)
Definition sample_float_of_str (s : string) : option pyfloat :=
  match sample_int_of_str s with
  | Some z => Some (FFin (inject_Z z))
  | None => None
  end.

Definition connection_refused : exn := Exn ConnectionError "Connection refused".

Definition good_draft : string :=
  "ANALYSIS: the service does not answer" +:+ nl +:+ "---" +:+ nl
    +:+ "SUBJECT: Addition API (port 8002) is down" +:+ nl +:+ "---" +:+ nl
    +:+ "EMAIL_BODY:" +:+ nl +:+ "Hi Team," +:+ nl +:+ "a restart is under way.".

(** A draft with one separator only: two segments. *)
Definition short_draft : string :=
  "ANALYSIS: the service does not answer" +:+ nl +:+ "---" +:+ nl
    +:+ "SUBJECT: Addition API (port 8002) is down".

(** The service is down and stays down; the model drafts two segments. *)
Definition world_short_alert_draft : World :=
  MkWorld (fun _ _ => HttpExn connection_refused)
          (fun _ => Ok short_draft)
          (fun _ => None) (fun _ => []) (fun _ => None) (fun _ => None)
          (fun _ _ => Ok 4242) false "/usr/bin/python3" ["1"]
          0 0 0 0 0 [].

(** The service is down at the probe and answers 200 after the restart; the
    operator approves the alert; the first draft is well-formed, the second
    has two segments. *)
Definition world_short_recovery_draft : World :=
  MkWorld (fun n _ => match n with
                      | O => HttpExn connection_refused
                      | S _ => HttpResp 200 "ok"
                      end)
          (fun n => match n with O => Ok good_draft | S _ => Ok short_draft end)
          (fun _ => None) (fun _ => []) (fun _ => None) (fun _ => None)
          (fun _ _ => Ok 4242) false "/usr/bin/python3" ["1"; "1"]
          0 0 0 0 0 [].

(** The service is down; the operator rejects the alert. *)
Definition world_alert_rejected : World :=
  MkWorld (fun _ _ => HttpExn connection_refused)
          (fun _ => Ok good_draft)
          (fun _ => None) (fun _ => []) (fun _ => None) (fun _ => None)
          (fun _ _ => Ok 4242) false "/usr/bin/python3" ["2"]
          0 0 0 0 0 [].

(** A process holds port 8002. *)
Definition incumbent : proc := Proc 777 (Some [Conn (Some 22); Conn (Some 8002)]).

(** The incumbent cannot be killed; the new instance starts and answers. *)
Definition world_kill_denied : World :=
  MkWorld (fun _ _ => HttpResp 200 "ok")
          (fun _ => Ok good_draft)
          (fun _ => None) (fun _ => [incumbent])
          (fun _ => Some (Exn (LibraryError "psutil.AccessDenied") "access denied"))
          (fun _ => None)
          (fun _ _ => Ok 4242) false "/usr/bin/python3" []
          0 0 0 0 0 [].

(** Nothing holds the port; the new instance answers at the second poll. *)
Definition world_port_free : World :=
  MkWorld (fun n _ => match n with
                      | O => HttpExn connection_refused
                      | S _ => HttpResp 200 "ok"
                      end)
          (fun _ => Ok good_draft)
          (fun _ => None) (fun _ => []) (fun _ => None) (fun _ => None)
          (fun _ _ => Ok 4242) false "/usr/bin/python3" []
          0 0 0 0 0 [].

(** The same, but the incumbent holds the port and can be killed. *)
Definition world_port_held : World :=
  MkWorld (w_http world_port_free) (w_llm world_port_free) (w_smtp world_port_free)
          (fun _ => [incumbent]) (fun _ => None) (fun _ => None)
          (w_popen world_port_free) false "/usr/bin/python3" []
          0 0 0 0 0 [].

Definition addition_api : service_config :=
  ServiceConfig 8002 "http://localhost:8002/health"
    "http://localhost:8002/addition?a=10&b=5" "addition_app:app".

(** Every service answers 200. *)
Definition world_all_healthy : World :=
  MkWorld (fun _ _ => HttpResp 200 "UP")
          (fun _ => Ok good_draft)
          (fun _ => None) (fun _ => []) (fun _ => None) (fun _ => None)
          (fun _ _ => Ok 4242) false "/usr/bin/python3" []
          0 0 0 0 0 [].

(** The operator rewrites the body, then approves. *)
Definition world_edit_body : World :=
  MkWorld (fun _ _ => HttpExn connection_refused)
          (fun _ => Ok good_draft)
          (fun _ => None) (fun _ => []) (fun _ => None) (fun _ => None)
          (fun _ _ => Ok 4242) false "/usr/bin/python3"
          ["3"; "Hi Team,"; "the service is being restarted."; "END"; "1"; "2"]
          0 0 0 0 0 [].

Section Source.

Variable int_of_str : string -> option Z.
Variable float_of_str : string -> option pyfloat.

(** The two module-level tables of [config.py], as the importing modules see
    them. *)
Variable API_SERVICES : list (string * service_config).
Variable MONITORING_CONFIG : gmap string pyval.

(** ** api_restart_manager.py *)

Definition DEFAULT_MONITORING_CONFIG : gmap string Z :=
  <["health_check_attempts" := 10]>
    (<["health_check_wait" := 3]>
       (<["health_check_timeout" := 5]> ∅)).

(** [DEFAULT_MONITORING_CONFIG[key]] for the three keys the module reads *)
Definition DEFAULT_of (key : string) : Z :=
  default 0 (DEFAULT_MONITORING_CONFIG !! key).

(** [v is not None] is decidable. *)
#[global] Instance pyval_ne_None_dec (v : pyval) : Decision (v ≠ VNone).
Proof.
  destruct v; first [ right; intros H; apply H; reflexivity | left; discriminate ].
Defined.

(** Defaults overlaid with the entries of [MONITORING_CONFIG] that are not
    [None]. *)
Definition _merged_monitoring_config : gmap string pyval :=
  filter (λ kv, kv.2 ≠ VNone) MONITORING_CONFIG
    ∪ (VInt <$> DEFAULT_MONITORING_CONFIG).

Definition _to_int (value : pyval) (default : Z) : Z :=
  match py_int int_of_str value with
  | Ok z => z
  | Raise _ => default
  end.

Definition _to_float (value : pyval) (default : Z) : pynum :=
  match py_float float_of_str value with
  | Ok f => NFloat f
  | Raise _ => NInt default
  end.

(** [cfg.get(key)] *)
Definition cfg_get (cfg : gmap string pyval) (key : string) : pyval :=
  default VNone (cfg !! key).

Definition conn_on_port (port : Z) (c : conn) : bool :=
  match laddr c with
  | Some p => p =? port
  | None => false
  end.

Fixpoint first_proc_on_port (procs : list proc) (port : Z) : option proc :=
  match procs with
  | [] => None
  | p :: rest =>
      match connections p with
      | Some conns =>
          if existsb (conn_on_port port) conns then Some p
          else first_proc_on_port rest port
      | None => first_proc_on_port rest port
      end
  end.

Definition find_process_on_port (port : Z) : M (option proc) :=
  procs <- process_iter ;;
  ret (first_proc_on_port procs port).

Definition kill_api_on_port (port : Z) : M bool :=
  proc <- find_process_on_port port ;;
  match proc with
  | Some p =>
      try_catch
        (proc_kill p ;;;
         proc_wait p 5 ;;;
         time_sleep (NInt 2) ;;;
         ret true)
        (fun _ => ret false)
  | None => ret true
  end.

(** Returns the process handle (its pid), [None] for Python's [None]. *)
Definition start_specific_api (api_name : string) : M (option Z) :=
  match dict_get API_SERVICES api_name with
  | None => ret None
  | Some config =>
      try_catch
        (python_exe <- sys_executable ;;
         let cmd := [python_exe; "-m"; "uvicorn"; app_module config;
                     "--host"; "0.0.0.0"; "--port"; str_int (port config)] in
         nt <- os_name_is_nt ;;
         process <- popen cmd (if nt then NewConsoleAndGroup else NewSession) ;;
         ret (Some process))
        (fun _ => ret None)
  end.

(** The three parameters of the verification loop after sanitization. *)
Definition verify_max_attempts : Z :=
  let max_attempts :=
    _to_int (cfg_get _merged_monitoring_config "health_check_attempts")
            (DEFAULT_of "health_check_attempts") in
  if max_attempts <? 1 then 1 else max_attempts.

Definition verify_wait_time : pynum :=
  let wait_time :=
    _to_float (cfg_get _merged_monitoring_config "health_check_wait")
              (DEFAULT_of "health_check_wait") in
  if num_lt0 wait_time then NFloat (FFin 0) else wait_time.

Definition verify_timeout : pynum :=
  let timeout :=
    _to_float (cfg_get _merged_monitoring_config "health_check_timeout")
              (DEFAULT_of "health_check_timeout") in
  if num_le0 timeout
  then NFloat (FFin (inject_Z (DEFAULT_of "health_check_timeout")))
  else timeout.

(** One round of the loop body: [true] when the response is a 200. Whatever
    is raised by the sleep or the request is caught and the round counts as
    failed. *)
Definition poll_once (url : string) (wait_time timeout : pynum) : M bool :=
  try_catch
    (time_sleep wait_time ;;;
     response <- requests_get url timeout ;;
     ret (fst response =? 200))
    (fun _ => ret false).

(** [for attempt in range(1, max_attempts + 1)] with [n] rounds left *)
Fixpoint poll_loop (url : string) (wait_time timeout : pynum) (n : nat) : M bool :=
  match n with
  | O => ret false
  | S k =>
      ok <- poll_once url wait_time timeout ;;
      if ok then ret true else poll_loop url wait_time timeout k
  end.

Definition verify_api_health (api_name : string) : M bool :=
  match dict_get API_SERVICES api_name with
  | None => ret false
  | Some config =>
      poll_loop (health_url config) verify_wait_time verify_timeout
                (Z.to_nat verify_max_attempts)
  end.

Definition restart_specific_api (api_name : string) : M bool :=
  match dict_get API_SERVICES api_name with
  | None => ret false
  | Some config =>
      _ <- kill_api_on_port (port config) ;;
      process <- start_specific_api api_name ;;
      match process with
      | None => ret false
      | Some _ =>
          success <- verify_api_health api_name ;;
          ret success
      end
  end.

(** ** multi_api_monitor.py *)

(** The graph state, a [TypedDict] whose keys are all set by the driver. *)
Record MonitorState : Type := MkState {
  api_name : string;
  api_url : string;
  api_port : Z;
  api_status : string;
  error_details : string;
  agent_analysis : string;
  email_subject : string;
  email_body : string;
  human_approval : string;
  action_taken : string;
  email_sent : bool;
  restart_attempted : bool;
  recovery_status : string;
  recovery_email_sent : bool
}.

(** [state[key] = v], one function per key that the nodes assign. *)
Definition set_api_status (v : string) (state : MonitorState) : MonitorState :=
  MkState (api_name state) (api_url state) (api_port state) v
    (error_details state) (agent_analysis state) (email_subject state)
    (email_body state) (human_approval state) (action_taken state)
    (email_sent state) (restart_attempted state) (recovery_status state)
    (recovery_email_sent state).

Definition set_error_details (v : string) (state : MonitorState) : MonitorState :=
  MkState (api_name state) (api_url state) (api_port state)
    (api_status state) v (agent_analysis state) (email_subject state)
    (email_body state) (human_approval state) (action_taken state)
    (email_sent state) (restart_attempted state) (recovery_status state)
    (recovery_email_sent state).

Definition set_agent_analysis (v : string) (state : MonitorState) : MonitorState :=
  MkState (api_name state) (api_url state) (api_port state)
    (api_status state) (error_details state) v (email_subject state)
    (email_body state) (human_approval state) (action_taken state)
    (email_sent state) (restart_attempted state) (recovery_status state)
    (recovery_email_sent state).

Definition set_email_subject (v : string) (state : MonitorState) : MonitorState :=
  MkState (api_name state) (api_url state) (api_port state)
    (api_status state) (error_details state) (agent_analysis state) v
    (email_body state) (human_approval state) (action_taken state)
    (email_sent state) (restart_attempted state) (recovery_status state)
    (recovery_email_sent state).

Definition set_email_body (v : string) (state : MonitorState) : MonitorState :=
  MkState (api_name state) (api_url state) (api_port state)
    (api_status state) (error_details state) (agent_analysis state)
    (email_subject state) v (human_approval state) (action_taken state)
    (email_sent state) (restart_attempted state) (recovery_status state)
    (recovery_email_sent state).

Definition set_human_approval (v : string) (state : MonitorState) : MonitorState :=
  MkState (api_name state) (api_url state) (api_port state)
    (api_status state) (error_details state) (agent_analysis state)
    (email_subject state) (email_body state) v (action_taken state)
    (email_sent state) (restart_attempted state) (recovery_status state)
    (recovery_email_sent state).

Definition set_action_taken (v : string) (state : MonitorState) : MonitorState :=
  MkState (api_name state) (api_url state) (api_port state)
    (api_status state) (error_details state) (agent_analysis state)
    (email_subject state) (email_body state) (human_approval state) v
    (email_sent state) (restart_attempted state) (recovery_status state)
    (recovery_email_sent state).

Definition set_email_sent (v : bool) (state : MonitorState) : MonitorState :=
  MkState (api_name state) (api_url state) (api_port state)
    (api_status state) (error_details state) (agent_analysis state)
    (email_subject state) (email_body state) (human_approval state)
    (action_taken state) v (restart_attempted state) (recovery_status state)
    (recovery_email_sent state).

Definition set_restart_attempted (v : bool) (state : MonitorState) : MonitorState :=
  MkState (api_name state) (api_url state) (api_port state)
    (api_status state) (error_details state) (agent_analysis state)
    (email_subject state) (email_body state) (human_approval state)
    (action_taken state) (email_sent state) v (recovery_status state)
    (recovery_email_sent state).

Definition set_recovery_status (v : string) (state : MonitorState) : MonitorState :=
  MkState (api_name state) (api_url state) (api_port state)
    (api_status state) (error_details state) (agent_analysis state)
    (email_subject state) (email_body state) (human_approval state)
    (action_taken state) (email_sent state) (restart_attempted state) v
    (recovery_email_sent state).

Definition set_recovery_email_sent (v : bool) (state : MonitorState) : MonitorState :=
  MkState (api_name state) (api_url state) (api_port state)
    (api_status state) (error_details state) (agent_analysis state)
    (email_subject state) (email_body state) (human_approval state)
    (action_taken state) (email_sent state) (restart_attempted state)
    (recovery_status state) v.

(** Node: check API health status *)
Definition check_api_health (state : MonitorState) : M MonitorState :=
  state <-
    try_catch
      (r <- requests_get (api_url state) (NInt 5) ;;
       if fst r =? 200 then
         let state := set_api_status "healthy" state in
         ret (set_error_details
                (api_name state +:+ " is functioning normally on port "
                   +:+ str_int (api_port state)) state)
       else
         let state := set_api_status "unhealthy" state in
         ret (set_error_details
                ("Status Code: " +:+ str_int (fst r) +:+ nl
                   +:+ "Response: " +:+ snd r) state))
      (fun e =>
         let state := set_api_status "down" state in
         ret (set_error_details
                ("Connection Error: " +:+ str_exn e +:+ nl
                   +:+ "Port: " +:+ str_int (api_port state)) state)) ;;
  let state := set_email_sent false state in
  let state := set_restart_attempted false state in
  let state := set_recovery_email_sent false state in
  ret state.

(** [parts[i]] *)
Definition list_index (parts : list string) (i : nat) : M string :=
  match parts !! i with
  | Some s => ret s
  | None => raise (Exn IndexError "list index out of range")
  end.

(** [state.get("recovery_status") == "success"] *)
Definition is_recovery (state : MonitorState) : bool :=
  String.eqb (recovery_status state) "success".

(** Node: the agent analyses the situation and drafts the email *)
Definition agent_analyze (state : MonitorState) : M MonitorState :=
  let email_type := if is_recovery state then "recovery" else "alert" in
  let prompt :=
    if String.eqb email_type "alert"
    then AlertPrompt (api_name state) (api_port state) (api_url state)
                     (api_status state) (error_details state)
    else RecoveryPrompt (api_name state) (api_port state) in
  content <- llm_invoke prompt ;;
  let parts := str_split "---" content in
  p0 <- list_index parts 0 ;;
  let state := set_agent_analysis (strip (str_replace "ANALYSIS:" "" p0)) state in
  p1 <- list_index parts 1 ;;
  let state := set_email_subject (strip (str_replace "SUBJECT:" "" p1)) state in
  p2 <- list_index parts 2 ;;
  let state := set_email_body (strip (str_replace "EMAIL_BODY:" "" p2)) state in
  ret state.

(** [for i in range(n, 0, -1): time.sleep(1)] *)
Fixpoint countdown (n : nat) : M unit :=
  match n with
  | O => ret tt
  | S k => time_sleep (NInt 1) ;;; countdown k
  end.

(** [MONITORING_CONFIG.get(key, fallback)] *)
Definition monitoring_get (key : string) (fallback : pyval) : pyval :=
  default fallback (MONITORING_CONFIG !! key).

(** Node: attempt the automatic restart of the service *)
Definition attempt_restart (state : MonitorState) : M MonitorState :=
  restart_delay <-
    lift_result (py_int int_of_str (monitoring_get "restart_delay" (VInt 30))) ;;
  let restart_delay := if restart_delay <? 0 then 0 else restart_delay in
  countdown (Z.to_nat restart_delay) ;;;
  success <- restart_specific_api (api_name state) ;;
  let state := set_restart_attempted true state in
  let state := set_recovery_status (if success then "success" else "failed") state in
  ret state.

(** Where the operator console stands inside [human_review]: at the menu
    prompt, inside the body editor (with the lines typed so far), or at the
    subject prompt.  These are the three [input()] sites of the function. *)
Inductive review_mode : Type :=
  | AtMenu
  | InBody (lines : list string)
  | AtSubject.

(** The [while True] loop of [human_review] run on the console lines still
    to come; each [input()] takes the next line, and raises [EOFError] when
    none is left.  Returns the lines left unread. *)
Fixpoint review_loop (stdin : list string) (mode : review_mode)
    (state : MonitorState) : result MonitorState * list string :=
  match stdin with
  | [] => (Raise (Exn EOFError ""), [])
  | line :: rest =>
      match mode with
      | AtMenu =>
          let choice := strip line in
          if String.eqb choice "1" then
            (Ok (set_human_approval "approved" state), rest)
          else if String.eqb choice "2" then
            (Ok (set_human_approval "rejected" state), rest)
          else if String.eqb choice "3" then review_loop rest (InBody []) state
          else if String.eqb choice "4" then review_loop rest AtSubject state
          else review_loop rest AtMenu state
      | InBody lines =>
          if String.eqb line "END"
          then review_loop rest AtMenu (set_email_body (str_join nl lines) state)
          else review_loop rest (InBody (lines ++ [line])) state
      | AtSubject =>
          review_loop rest AtMenu (set_email_subject (strip line) state)
      end
  end.

(** Node: the human reviews and approves, rejects or edits *)
Definition human_review (state : MonitorState) : M MonitorState :=
  fun w =>
    let '(r, rest) := review_loop (w_stdin w) AtMenu state in
    (r, with_state w rest (n_http w) (n_llm w) (n_smtp w) (n_procs w)
          (n_popen w) (w_log w)).

(** Node: send the email (only once) *)
Definition send_email_action (state : MonitorState) : M MonitorState :=
  let is_recovery := is_recovery state in
  if is_recovery && recovery_email_sent state then ret state
  else if negb is_recovery && email_sent state then ret state
  else if String.eqb (human_approval state) "approved" then
    try_catch
      (send_email_alert (email_body state) (email_subject state) ;;;
       let state := set_action_taken "Email sent successfully ✅" state in
       let state := if is_recovery
                    then set_recovery_email_sent true state
                    else set_email_sent true state in
       ret state)
      (fun e =>
         ret (set_action_taken ("Failed to send email: " +:+ str_exn e) state))
  else
    ret (set_action_taken "Email cancelled by user ❌" state).

(** Routing: decide if an alert is needed *)
Definition should_alert (state : MonitorState) : string :=
  if String.eqb (api_status state) "healthy" then "healthy" else "needs_alert".

(** Routing: should a restart be attempted after the alert? *)
Definition should_attempt_restart (state : MonitorState) : string :=
  "attempt_restart".

(** Routing: was the recovery successful? *)
Definition check_recovery (state : MonitorState) : string :=
  if is_recovery state then "recovered" else "failed".

(** *** The graph *)

Inductive node : Type :=
  | check_health
  | analyze_alert
  | human_review_alert
  | send_alert_email
  | attempt_restart_node
  | analyze_recovery
  | human_review_recovery
  | send_recovery_email.

(** [workflow.add_node(name, function)] *)
Definition node_fn (n : node) : MonitorState -> M MonitorState :=
  match n with
  | check_health => check_api_health
  | analyze_alert => agent_analyze
  | human_review_alert => human_review
  | send_alert_email => send_email_action
  | attempt_restart_node => attempt_restart
  | analyze_recovery => agent_analyze
  | human_review_recovery => human_review
  | send_recovery_email => send_email_action
  end.

(** The edges; [None] is [END].  A conditional edge looks its routing
    function's answer up in its table. *)
Definition next_node (n : node) (state : MonitorState) : option node :=
  match n with
  | check_health =>
      if String.eqb (should_alert state) "healthy" then None
      else Some analyze_alert
  | analyze_alert => Some human_review_alert
  | human_review_alert => Some send_alert_email
  | send_alert_email =>
      if String.eqb (should_attempt_restart state) "attempt_restart"
      then Some attempt_restart_node else None
  | attempt_restart_node =>
      if String.eqb (check_recovery state) "recovered"
      then Some analyze_recovery else None
  | analyze_recovery => Some human_review_recovery
  | human_review_recovery => Some send_recovery_email
  | send_recovery_email => None
  end.

(** What one invocation of the compiled graph did: the nodes entered, in
    order, each with the state and the world it was entered with. *)
Definition trace : Type := list (node * MonitorState * World).

(** LangGraph runs at most [recursion_limit] steps (25 unless configured)
    and raises [GraphRecursionError] beyond; an exception of a node ends
    the invocation and is raised to the caller. *)
Fixpoint run_graph (fuel : nat) (n : node) (state : MonitorState) (w : World)
    : trace * (result MonitorState * World) :=
  match fuel with
  | O => ([], (Raise (Exn GraphRecursionError ""), w))
  | S fuel' =>
      match node_fn n state w with
      | (Raise e, w') => ([(n, state, w)], (Raise e, w'))
      | (Ok state', w') =>
          match next_node n state' with
          | None => ([(n, state, w)], (Ok state', w'))
          | Some n' =>
              let '(tr, r) := run_graph fuel' n' state' w' in
              ((n, state, w) :: tr, r)
          end
      end
  end.

Definition recursion_limit : nat := 25.

(** [graph.invoke(initial_state)] with its trace *)
Definition graph_run (initial_state : MonitorState) (w : World)
    : trace * (result MonitorState * World) :=
  run_graph recursion_limit check_health initial_state w.

(** [graph.invoke(initial_state)] *)
Definition graph_invoke (initial_state : MonitorState) : M MonitorState :=
  fun w => snd (graph_run initial_state w).

(** The state every pass starts from. *)
Definition initial_state (name : string) (config : service_config) : MonitorState :=
  MkState name (health_url config) (port config) "" "" "" "" "" "" ""
          false false "" false.

(** [for api_name, config in API_SERVICES.items(): graph.invoke(...)] *)
Fixpoint for_each_service (services : list (string * service_config)) : M unit :=
  match services with
  | [] => ret tt
  | (name, config) :: rest =>
      _ <- graph_invoke (initial_state name config) ;;
      for_each_service rest
  end.

(** The first [ticks] rounds of the [while True] loop. *)
Fixpoint monitoring_loop (check_interval : Z) (ticks : nat) : M unit :=
  match ticks with
  | O => ret tt
  | S k =>
      for_each_service API_SERVICES ;;;
      time_sleep (NInt check_interval) ;;;
      monitoring_loop check_interval k
  end.

(** The main loop, cut after [ticks] rounds; it only ends earlier by an
    exception. *)
Definition run_monitoring (ticks : nat) : M unit :=
  check_interval <-
    lift_result (py_int int_of_str (monitoring_get "check_interval" (VInt 15))) ;;
  let check_interval := if check_interval <? 1 then 1 else check_interval in
  monitoring_loop check_interval ticks.

(** ** config.py and email_webhook.py: module-level code *)

(** The five [setdefault] statements of [config.py], applied to any table. *)
Definition defensive_defaults (d : gmap string pyval) : gmap string pyval :=
  setdefault "check_interval" (VInt 15)
    (setdefault "restart_delay" (VInt 30)
      (setdefault "health_check_timeout" (VInt 5)
        (setdefault "health_check_wait" (VInt 3)
          (setdefault "health_check_attempts" (VInt 10) d)))).




(** ** Vocabulary of the properties *)

(** The nodes a run entered, and the states it went through: the state each
    node was entered with, then the final state when the run returned. *)
Definition trace_nodes (tr : trace) : list node := map (fun e => fst (fst e)) tr.

Definition run_states (run : trace * (result MonitorState * World))
    : list MonitorState :=
  map (fun e => snd (fst e)) (fst run)
    ++ match fst (snd run) with Ok s => [s] | Raise _ => [] end.

(** How often a flag goes from false to true along a list of states. *)
Fixpoint flips (flag : MonitorState -> bool) (l : list MonitorState) : nat :=
  match l with
  | a :: (b :: _) as rest =>
      ((if negb (flag a) && flag b then 1 else 0) + flips flag rest)%nat
  | _ => O
  end.

Definition node_eqb (a b : node) : bool :=
  match a, b with
  | check_health, check_health
  | analyze_alert, analyze_alert
  | human_review_alert, human_review_alert
  | send_alert_email, send_alert_email
  | attempt_restart_node, attempt_restart_node
  | analyze_recovery, analyze_recovery
  | human_review_recovery, human_review_recovery
  | send_recovery_email, send_recovery_email => true
  | _, _ => false
  end.

Definition count_node (n : node) (l : list node) : nat :=
  length (List.filter (node_eqb n) l).

(** Position of a node in the fixed order of the phases. *)
Definition rank (n : node) : nat :=
  match n with
  | check_health => 0
  | analyze_alert => 1
  | human_review_alert => 2
  | send_alert_email => 3
  | attempt_restart_node => 4
  | analyze_recovery => 5
  | human_review_recovery => 6
  | send_recovery_email => 7
  end.

(** Mail-delivery calls, HTTP requests and launches in a log. *)
Definition is_mail (ev : event) : bool :=
  match ev with EvMail _ _ => true | _ => false end.
Definition is_http (ev : event) : bool :=
  match ev with EvHttpGet _ _ => true | _ => false end.
Definition is_popen (ev : event) : bool :=
  match ev with EvPopen _ _ => true | _ => false end.

Definition count_events (f : event -> bool) (log : list event) : nat :=
  length (List.filter f log).

(** A response with status 200. *)
Definition is_200 (r : http_result) : bool :=
  match r with
  | HttpResp status _ => status =? 200
  | HttpExn _ => false
  end.

(** Two worlds that look the same to the launch and verification steps:
    they agree on everything those steps read. *)
Definition same_service_view (w1 w2 : World) : Prop :=
  w_http w1 = w_http w2 /\ w_popen w1 = w_popen w2
  /\ w_os_nt w1 = w_os_nt w2 /\ w_executable w1 = w_executable w2
  /\ n_http w1 = n_http w2 /\ n_popen w1 = n_popen w2.

(** A computation that depends on the world only through that view: run
    in two such worlds it returns the same result, logs the same events
    and keeps the worlds alike. *)
Definition view_determined {A} (m : M A) : Prop :=
  forall w1 w2 : World,
    same_service_view w1 w2 ->
    fst (m w1) = fst (m w2)
    /\ same_service_view (snd (m w1)) (snd (m w2))
    /\ exists evs : list event,
         w_log (snd (m w1)) = evs ++ w_log w1
         /\ w_log (snd (m w2)) = evs ++ w_log w2.

(** The world right after the process table was read. *)
Definition after_process_iter (w : World) : World := snd (process_iter w).

(** A flag never goes back from true to false along a list of states. *)
Fixpoint monotone (flag : MonitorState -> bool) (l : list MonitorState) : Prop :=
  match l with
  | a :: (b :: _) as rest => (flag a = true -> flag b = true) /\ monotone flag rest
  | _ => True
  end.

(** A node left the two sent-flags and the recovery status as they were. *)
Definition keeps_flags (st st' : MonitorState) : Prop :=
  email_sent st' = email_sent st
  /\ recovery_email_sent st' = recovery_email_sent st
  /\ recovery_status st' = recovery_status st.

(** The exception of an out-of-range [parts[i]]. *)
Definition index_error : exn := Exn IndexError "list index out of range".

(** The world right after the language model was called. *)
Definition after_llm (p : prompt) (w : World) : World := snd (llm_invoke p w).

(** The phases in the order the edges of the graph allow. *)
Definition phase_order : list node :=
  [check_health; analyze_alert; human_review_alert; send_alert_email;
   attempt_restart_node; analyze_recovery; human_review_recovery;
   send_recovery_email].

(** The phases from a node on. *)
Definition phases_from (n : node) : list node := drop (rank n) phase_order.

(** A node left the probe verdict and the restart record as they were. *)
Definition keeps_progress (st st' : MonitorState) : Prop :=
  api_status st' = api_status st
  /\ restart_attempted st' = restart_attempted st
  /\ recovery_status st' = recovery_status st.

(** A computation that makes no mail-delivery call. *)
Definition sends_no_mail {A} (m : M A) : Prop :=
  forall w : World,
    count_events is_mail (w_log (snd (m w))) = count_events is_mail (w_log w).

(** The review changed nothing but the draft and the decision. *)
Definition review_only_edits (st st' : MonitorState) : Prop :=
  api_name st' = api_name st /\ api_url st' = api_url st
  /\ api_port st' = api_port st /\ api_status st' = api_status st
  /\ error_details st' = error_details st
  /\ agent_analysis st' = agent_analysis st
  /\ action_taken st' = action_taken st
  /\ email_sent st' = email_sent st
  /\ restart_attempted st' = restart_attempted st
  /\ recovery_status st' = recovery_status st
  /\ recovery_email_sent st' = recovery_email_sent st.

(** A process whose connections can be read and include the port. *)
Definition holds_port (port : Z) (p : proc) : Prop :=
  exists conns : list conn,
    connections p = Some conns
    /\ exists c : conn, In c conns /\ laddr c = Some port.

(** Is one of the next [n] responses to requests for [url] a 200? *)
Definition answers_200_within (w : World) (url : string) (n : nat) : bool :=
  existsb (fun j => is_200 (w_http w (n_http w + j)%nat url)) (seq 0 n).

(** The keys those statements provide for. *)
Definition defaulted_keys : list string :=
  ["health_check_attempts"; "health_check_wait"; "health_check_timeout";
   "restart_delay"; "check_interval"].

(** The prompt the drafting node sends for a state. *)
Definition prompt_of (state : MonitorState) : prompt :=
  if is_recovery state
  then RecoveryPrompt (api_name state) (api_port state)
  else AlertPrompt (api_name state) (api_port state) (api_url state)
                   (api_status state) (error_details state).

(** The probes of one round over a service table, newest first. *)
Definition probes_of (services : list (string * service_config)) : list event :=
  rev (map (fun s => EvHttpGet (health_url (snd s)) (NInt 5)) services).

(** Events of the locate-and-terminate step, and of the verification loop. *)
Definition is_lookup_or_kill (ev : event) : bool :=
  match ev with
  | EvProcessIter | EvKill _ | EvWait _ _ | EvSleep _ => true
  | _ => false
  end.

Definition is_poll (ev : event) : bool :=
  match ev with
  | EvSleep _ | EvHttpGet _ _ => true
  | _ => false
  end.

(** The command line the launch step runs for a service. *)
Definition launch_command (w : World) (config : service_config) : list string :=
  [w_executable w; "-m"; "uvicorn"; app_module config;
   "--host"; "0.0.0.0"; "--port"; str_int (port config)].

(** Every event but a kill request. *)
Definition is_kill_free (ev : event) : bool :=
  match ev with EvKill _ => false | _ => true end.

(** ** Properties *)

Lemma string_app_assoc (a b c : string) : (a +:+ b) +:+ c = a +:+ (b +:+ c).
Proof.
  induction a as [|x a IH]; [reflexivity |].
  change (String x ((a +:+ b) +:+ c) = String x (a +:+ (b +:+ c))).
  now rewrite IH.
Qed.

Lemma string_app_nil_r (a : string) : a +:+ "" = a.
Proof.
  induction a as [|x a IH]; [reflexivity |].
  change (String x (a +:+ "") = String x a). now rewrite IH.
Qed.

(** C8. The health probe never raises: it always returns a state, with
    status "healthy" on a 200 response, status "unhealthy" and a detail
    holding the status code and the body on any other response, and status
    "down" (the service could not be reached) with a detail holding the
    error text when the request raises. *)
Theorem check_api_health_never_raises (state : MonitorState) (w : World) :
  exists state' : MonitorState,
    fst (check_api_health state w) = Ok state'
    /\ match w_http w (n_http w) (api_url state) with
       | HttpResp status text =>
           if status =? 200 then api_status state' = "healthy"
           else api_status state' = "unhealthy"
                /\ error_details state'
                   = "Status Code: " +:+ str_int status +:+ nl
                       +:+ "Response: " +:+ text
                /\ contains (str_int status) (error_details state')
                /\ contains text (error_details state')
       | HttpExn e =>
           api_status state' = "down"
           /\ contains (str_exn e) (error_details state')
       end.
Proof.
  unfold check_api_health, bind, try_catch, requests_get.
  destruct (w_http w (n_http w) (api_url state)) as [status text | e].
  - cbn [fst snd]. destruct (status =? 200) eqn:E200.
    + eexists. split; [reflexivity | reflexivity].
    + eexists. split; [reflexivity |]. cbn.
      repeat split.
      * exists "Status Code: ", (nl +:+ "Response: " +:+ text). reflexivity.
      * exists ("Status Code: " +:+ str_int status +:+ nl +:+ "Response: "), "".
        rewrite string_app_nil_r, !string_app_assoc. reflexivity.
  - eexists. split; [reflexivity |]. cbn. split; [reflexivity |].
    exists "Connection Error: ", (nl +:+ "Port: " +:+ str_int (api_port state)).
    reflexivity.
Qed.

(** C10. For a name that is not a key of the service table, the restart
    returns failure and leaves the world untouched (nothing is killed,
    launched or probed), the launch returns no process handle, and the
    verification returns failure. *)
Theorem unknown_api_is_refused (api_name : string) (w : World) :
  dict_get API_SERVICES api_name = None ->
  restart_specific_api api_name w = (Ok false, w)
  /\ start_specific_api api_name w = (Ok None, w)
  /\ verify_api_health api_name w = (Ok false, w).
Proof.
  intros Hnone.
  unfold restart_specific_api, start_specific_api, verify_api_health.
  rewrite Hnone. repeat split.
Qed.

(** *** The restart workflow *)

(** The locate-and-terminate step never raises. *)
Lemma kill_api_on_port_never_raises (p : Z) (w : World) :
  exists b : bool, fst (kill_api_on_port p w) = Ok b.
Proof.
  unfold kill_api_on_port, find_process_on_port, bind, process_iter, ret.
  destruct (first_proc_on_port _ _) as [pr|]; [| eexists; reflexivity].
  unfold try_catch, bind, proc_kill, proc_wait.
  destruct (w_kill _ _); cbn; [eexists; reflexivity |].
  destruct (w_wait _ _); cbn; eexists; reflexivity.
Qed.

(** The step leaves the HTTP and launch counters alone. *)
Lemma kill_api_on_port_counters (p : Z) (w : World) :
  n_http (snd (kill_api_on_port p w)) = n_http w
  /\ n_popen (snd (kill_api_on_port p w)) = n_popen w.
Proof.
  unfold kill_api_on_port, find_process_on_port, bind, process_iter, ret.
  destruct (first_proc_on_port _ _) as [pr|]; [| split; reflexivity].
  unfold try_catch, bind, proc_kill, proc_wait.
  destruct (w_kill _ _); cbn; [split; reflexivity |].
  destruct (w_wait _ _); cbn; split; reflexivity.
Qed.

(** The launch step never raises, and it makes no HTTP request. *)
Lemma start_specific_api_never_raises (api_name : string) (w : World) :
  exists h : option Z,
    fst (start_specific_api api_name w) = Ok h
    /\ n_http (snd (start_specific_api api_name w)) = n_http w.
Proof.
  unfold start_specific_api.
  destruct (dict_get API_SERVICES api_name) as [config|]; [| eexists; split; reflexivity].
  unfold try_catch, bind, sys_executable, os_name_is_nt, popen, ret.
  destruct (w_popen _ _ _); cbn; eexists; split; reflexivity.
Qed.

(** C3 (as amended). For a configured service: the termination step never
    raises and its outcome does not decide anything; when the launch fails
    the restart returns failure and verification is not attempted (no
    health request is made); when the launch succeeds the restart is
    exactly the verification step run in the world the launch left, so it
    returns success if and only if verification succeeds. *)
Theorem restart_succeeds_iff_launched_and_verified
    (api_name : string) (config : service_config) (w : World) :
  dict_get API_SERVICES api_name = Some config ->
  let w1 := snd (kill_api_on_port (port config) w) in
  let launched := start_specific_api api_name w1 in
  (exists b : bool, fst (kill_api_on_port (port config) w) = Ok b)
  /\ match fst launched with
     | Ok None =>
         restart_specific_api api_name w = (Ok false, snd launched)
         /\ n_http (snd (restart_specific_api api_name w)) = n_http w
     | Ok (Some _) =>
         restart_specific_api api_name w = verify_api_health api_name (snd launched)
         /\ (fst (restart_specific_api api_name w) = Ok true
             <-> fst (verify_api_health api_name (snd launched)) = Ok true)
     | Raise _ => False
     end.
Proof.
  intros Hcfg w1 launched.
  destruct (kill_api_on_port_never_raises (port config) w) as [b Hb].
  split; [exists b; exact Hb |].
  destruct (start_specific_api_never_raises api_name w1) as [h [Hh Hn]].
  fold launched in Hh, Hn.
  assert (Hrestart : restart_specific_api api_name w
                     = match h with
                       | None => (Ok false, snd launched)
                       | Some _ => verify_api_health api_name (snd launched)
                       end).
  { unfold restart_specific_api. rewrite Hcfg. unfold bind at 1.
    destruct (kill_api_on_port (port config) w) as [rk wk] eqn:Ek.
    cbn in Hb. subst rk. unfold bind at 1.
    subst launched w1. cbn [snd] in *.
    destruct (start_specific_api api_name wk) as [rs ws] eqn:Es.
    cbn in Hh. subst rs. cbn [snd].
    destruct h as [hp|]; [| reflexivity].
    unfold bind, ret. destruct (verify_api_health api_name ws) as [[v|e] wv]; reflexivity. }
  rewrite Hh. destruct h as [hp|].
  - split; [exact Hrestart |]. rewrite Hrestart. tauto.
  - split; [exact Hrestart |]. rewrite Hrestart. cbn [snd].
    rewrite Hn. subst w1. apply kill_api_on_port_counters.
Qed.

(** *** The verification loop *)

Lemma poll_once_spec (url : string) (wait_time timeout : pynum) (w : World) :
  let r := poll_once url wait_time timeout w in
  w_http (snd r) = w_http w
  /\ ((sleep_check wait_time <> None
       /\ fst r = Ok false /\ n_http (snd r) = n_http w)
      \/ (sleep_check wait_time = None
          /\ fst r = Ok (is_200 (w_http w (n_http w) url))
          /\ n_http (snd r) = S (n_http w))).
Proof.
  unfold poll_once, try_catch, bind, time_sleep, requests_get, ret.
  destruct (sleep_check wait_time) as [e|] eqn:Esleep; cbn.
  - split; [reflexivity |]. left. repeat split. discriminate.
  - destruct (w_http w (n_http w) url) as [status text | e]; cbn;
      (split; [reflexivity |]); right; repeat split.
Qed.

Lemma poll_loop_spec (url : string) (wait_time timeout : pynum) (n : nat) :
  forall w : World,
  exists (b : bool) (k : nat),
    fst (poll_loop url wait_time timeout n w) = Ok b
    /\ (k <= n)%nat
    /\ n_http (snd (poll_loop url wait_time timeout n w)) = (n_http w + k)%nat
    /\ w_http (snd (poll_loop url wait_time timeout n w)) = w_http w
    /\ (forall j : nat, (j + (if b then 1 else 0) < k)%nat ->
          is_200 (w_http w (n_http w + j)%nat url) = false)
    /\ (b = true ->
          exists j : nat, k = S j
            /\ is_200 (w_http w (n_http w + j)%nat url) = true).
Proof.
  induction n as [|n IH]; intros w.
  - exists false, O. cbn. repeat split; try lia; try discriminate.
  - cbn [poll_loop]. unfold bind.
    destruct (poll_once_spec url wait_time timeout w) as [Hhttp Hcase].
    destruct (poll_once url wait_time timeout w) as [r1 w1] eqn:Eonce.
    cbn [fst snd] in Hhttp, Hcase.
    destruct Hcase as [[_ [Hr Hn]] | [_ [Hr Hn]]]; subst r1.
    + destruct (IH w1) as (b & k & Hres & Hle & Hcnt & Hor & Hbefore & Hlast).
      exists b, k. rewrite Hhttp, Hn in *.
      split; [exact Hres |]. split; [lia |]. split; [exact Hcnt |].
      split; [exact Hor |]. split; [exact Hbefore | exact Hlast].
    + destruct (is_200 (w_http w (n_http w) url)) eqn:E200.
      * exists true, 1%nat. cbn [fst snd ret].
        split; [reflexivity |]. split; [lia |]. split; [lia |].
        split; [exact Hhttp |]. split.
        -- intros j Hj. lia.
        -- intros _. exists O. split; [reflexivity |].
           rewrite Nat.add_0_r. exact E200.
      * destruct (IH w1) as (b & k & Hres & Hle & Hcnt & Hor & Hbefore & Hlast).
        exists b, (S k). rewrite Hhttp, Hn in *.
        split; [exact Hres |]. split; [lia |]. split; [rewrite Hcnt; lia |].
        split; [exact Hor |]. split.
        -- intros [|j] Hj.
           ++ rewrite Nat.add_0_r. exact E200.
           ++ replace (n_http w + S j)%nat with (S (n_http w) + j)%nat by lia.
              apply Hbefore. lia.
        -- intros Hb. destruct (Hlast Hb) as (j & -> & Hj).
           exists (S j). split; [reflexivity |].
           replace (n_http w + S j)%nat with (S (n_http w) + j)%nat by lia.
           exact Hj.
Qed.

(** What the merged configuration holds for a key the monitoring table
    sets to something other than [None]. *)
Lemma merged_lookup_set (key : string) (v : pyval) :
  MONITORING_CONFIG !! key = Some v -> v <> VNone ->
  cfg_get _merged_monitoring_config key = v.
Proof.
  intros Hk Hv. unfold cfg_get, _merged_monitoring_config.
  erewrite lookup_union_Some_l; [reflexivity |].
  apply map_lookup_filter_Some. split; [exact Hk | exact Hv].
Qed.

(** ... and for a key it lacks or sets to [None]: the module's default. *)
Lemma merged_lookup_default (key : string) :
  (MONITORING_CONFIG !! key = None \/ MONITORING_CONFIG !! key = Some VNone) ->
  cfg_get _merged_monitoring_config key
  = default VNone (VInt <$> DEFAULT_MONITORING_CONFIG !! key).
Proof.
  intros Hk. unfold cfg_get, _merged_monitoring_config.
  rewrite lookup_union_r; [rewrite lookup_fmap; reflexivity |].
  apply map_lookup_filter_None. destruct Hk as [Hk | Hk].
  - left. exact Hk.
  - right. intros v Hv. rewrite Hk in Hv. injection Hv as <-.
    cbn. intros H. apply H. reflexivity.
Qed.

Lemma sanitize_attempts_0 :
  MONITORING_CONFIG !! "health_check_attempts" = Some (VInt 0) ->
  verify_max_attempts = 1.
Proof.
  intros H. unfold verify_max_attempts.
  rewrite (merged_lookup_set _ _ H) by discriminate. reflexivity.
Qed.

Lemma sanitize_wait_minus_5 :
  MONITORING_CONFIG !! "health_check_wait" = Some (VInt (-5)) ->
  verify_wait_time = NFloat (FFin 0).
Proof.
  intros H. unfold verify_wait_time.
  rewrite (merged_lookup_set _ _ H) by discriminate. reflexivity.
Qed.

Lemma sanitize_timeout_0 :
  MONITORING_CONFIG !! "health_check_timeout" = Some (VInt 0) ->
  verify_timeout = NFloat (FFin 5).
Proof.
  intros H. unfold verify_timeout.
  rewrite (merged_lookup_set _ _ H) by discriminate. reflexivity.
Qed.

(** The sanitized number of attempts is at least one. *)
Lemma verify_max_attempts_floor : 1 <= verify_max_attempts.
Proof.
  unfold verify_max_attempts.
  destruct (_ <? 1) eqn:E; [lia | apply Z.ltb_ge in E; exact E].
Qed.

(** The verification of a configured service never raises; it makes at
    most [verify_max_attempts] requests, none of the requests before the
    last one is answered by a 200, and it returns success exactly when the
    last one is. *)
Lemma verify_api_health_polls
    (api_name : string) (config : service_config) (w : World) :
  dict_get API_SERVICES api_name = Some config ->
  exists (b : bool) (k : nat),
    fst (verify_api_health api_name w) = Ok b
    /\ (k <= Z.to_nat verify_max_attempts)%nat
    /\ n_http (snd (verify_api_health api_name w)) = (n_http w + k)%nat
    /\ (forall j : nat, (j + (if b then 1 else 0) < k)%nat ->
          is_200 (w_http w (n_http w + j)%nat (health_url config)) = false)
    /\ (b = true ->
          exists j : nat, k = S j
            /\ is_200 (w_http w (n_http w + j)%nat (health_url config)) = true).
Proof.
  intros Hcfg. unfold verify_api_health. rewrite Hcfg.
  destruct (poll_loop_spec (health_url config) verify_wait_time verify_timeout
              (Z.to_nat verify_max_attempts) w)
    as (b & k & Hres & Hle & Hcnt & _ & Hbefore & Hlast).
  exists b, k. auto.
Qed.

(** *** Restart with and without an incumbent process *)

Lemma view_ret {A} (a : A) : view_determined (ret a).
Proof.
  intros w1 w2 Hv. cbn. split; [reflexivity |]. split; [exact Hv |].
  exists []. split; reflexivity.
Qed.

Lemma view_bind {A B} (m : M A) (k : A -> M B) :
  view_determined m -> (forall a, view_determined (k a)) ->
  view_determined (bind m k).
Proof.
  intros Hm Hk w1 w2 Hv. unfold bind.
  destruct (Hm w1 w2 Hv) as (Hr & Hv' & evs & Hl1 & Hl2).
  destruct (m w1) as [r1 w1'], (m w2) as [r2 w2']. cbn [fst snd] in *. subst r2.
  destruct r1 as [a | e].
  - destruct (Hk a w1' w2' Hv') as (Hr2 & Hv2 & evs2 & Hl3 & Hl4).
    split; [exact Hr2 |]. split; [exact Hv2 |].
    exists (evs2 ++ evs). rewrite Hl3, Hl4, Hl1, Hl2, <- !app_assoc. split; reflexivity.
  - cbn. split; [reflexivity |]. split; [exact Hv' |]. exists evs. split; assumption.
Qed.

Lemma view_try_catch {A} (m : M A) (h : exn -> M A) :
  view_determined m -> (forall e, view_determined (h e)) ->
  view_determined (try_catch m h).
Proof.
  intros Hm Hh w1 w2 Hv. unfold try_catch.
  destruct (Hm w1 w2 Hv) as (Hr & Hv' & evs & Hl1 & Hl2).
  destruct (m w1) as [r1 w1'], (m w2) as [r2 w2']. cbn [fst snd] in *. subst r2.
  destruct r1 as [a | e].
  - cbn. split; [reflexivity |]. split; [exact Hv' |]. exists evs. split; assumption.
  - destruct (Hh e w1' w2' Hv') as (Hr2 & Hv2 & evs2 & Hl3 & Hl4).
    split; [exact Hr2 |]. split; [exact Hv2 |].
    exists (evs2 ++ evs). rewrite Hl3, Hl4, Hl1, Hl2, <- !app_assoc. split; reflexivity.
Qed.

Lemma view_time_sleep (secs : pynum) : view_determined (time_sleep secs).
Proof.
  intros w1 w2 Hv. unfold time_sleep. destruct (sleep_check secs); cbn.
  - split; [reflexivity |]. split; [exact Hv |]. exists []. split; reflexivity.
  - split; [reflexivity |]. split; [exact Hv |].
    exists [EvSleep secs]. split; reflexivity.
Qed.

Lemma view_requests_get (url : string) (timeout : pynum) :
  view_determined (requests_get url timeout).
Proof.
  intros w1 w2 Hv. pose proof Hv as (Hh & Hp & Ho & He & Hnh & Hnp).
  unfold requests_get. rewrite Hh, Hnh.
  destruct (w_http w2 (n_http w2) url); cbn [fst snd];
    (split; [reflexivity |]);
    (split; [unfold same_service_view; cbn; repeat split;
             first [assumption | reflexivity]
            | exists [EvHttpGet url timeout]; split; reflexivity]).
Qed.

Lemma view_popen (cmd : list string) (flags : popen_flags) :
  view_determined (popen cmd flags).
Proof.
  intros w1 w2 Hv. pose proof Hv as (Hh & Hp & Ho & He & Hnh & Hnp).
  unfold popen. cbn [fst snd]. rewrite Hp, Hnp.
  split; [reflexivity |]. split.
  - unfold same_service_view. cbn. repeat split; first [assumption | reflexivity].
  - exists [EvPopen cmd flags]. split; reflexivity.
Qed.

Lemma view_sys_executable : view_determined sys_executable.
Proof.
  intros w1 w2 Hv. pose proof Hv as (Hh & Hp & Ho & He & Hnh & Hnp).
  unfold sys_executable. cbn. split; [now rewrite He |]. split; [exact Hv |].
  exists []. split; reflexivity.
Qed.

Lemma view_os_name_is_nt : view_determined os_name_is_nt.
Proof.
  intros w1 w2 Hv. pose proof Hv as (Hh & Hp & Ho & He & Hnh & Hnp).
  unfold os_name_is_nt. cbn. split; [now rewrite Ho |]. split; [exact Hv |].
  exists []. split; reflexivity.
Qed.

Create HintDb view discriminated.
Hint Resolve view_ret view_time_sleep view_requests_get view_popen
  view_sys_executable view_os_name_is_nt : view.

Ltac view_step :=
  first [ apply view_bind; [| intros ?]
        | apply view_try_catch; [| intros ?]
        | solve [ auto with view ] ].

Lemma view_poll_loop (url : string) (wait_time timeout : pynum) (n : nat) :
  view_determined (poll_loop url wait_time timeout n).
Proof.
  induction n as [|n IH]; cbn [poll_loop]; [apply view_ret |].
  apply view_bind.
  - unfold poll_once. repeat view_step.
  - intros [|]; [apply view_ret | exact IH].
Qed.

Lemma view_verify_api_health (api_name : string) :
  view_determined (verify_api_health api_name).
Proof.
  unfold verify_api_health.
  destruct (dict_get API_SERVICES api_name); [apply view_poll_loop | apply view_ret].
Qed.

Lemma view_start_specific_api (api_name : string) :
  view_determined (start_specific_api api_name).
Proof.
  unfold start_specific_api.
  destruct (dict_get API_SERVICES api_name); [| apply view_ret].
  repeat view_step.
Qed.

(** The launch of a configured service logs exactly one event, the
    [Popen] call. *)
Lemma start_specific_api_log
    (api_name : string) (config : service_config) (w : World) :
  dict_get API_SERVICES api_name = Some config ->
  exists (cmd : list string) (flags : popen_flags),
    w_log (snd (start_specific_api api_name w)) = EvPopen cmd flags :: w_log w.
Proof.
  intros Hcfg. unfold start_specific_api. rewrite Hcfg.
  unfold try_catch, bind, sys_executable, os_name_is_nt, popen, ret.
  destruct (w_popen _ _ _); cbn; eexists; eexists; reflexivity.
Qed.

Lemma kill_api_on_port_no_process (p : Z) (w : World) :
  first_proc_on_port (w_procs w (n_procs w)) p = None ->
  kill_api_on_port p w = (Ok true, after_process_iter w).
Proof.
  intros Hnone.
  unfold kill_api_on_port, find_process_on_port, bind, process_iter, ret.
  rewrite Hnone. reflexivity.
Qed.

Lemma kill_api_on_port_killed (p : Z) (w : World) (pr : proc) :
  first_proc_on_port (w_procs w (n_procs w)) p = Some pr ->
  w_kill w (pid pr) = None ->
  w_wait w (pid pr) = None ->
  kill_api_on_port p w
  = (Ok true,
     emit (EvSleep (NInt 2))
       (emit (EvWait (pid pr) 5) (emit (EvKill (pid pr)) (after_process_iter w)))).
Proof.
  intros Hsome Hkill Hwait.
  unfold kill_api_on_port, find_process_on_port, bind, process_iter, ret.
  rewrite Hsome.
  unfold try_catch, bind, proc_kill, proc_wait. cbn.
  rewrite Hkill. cbn. rewrite Hwait. reflexivity.
Qed.

(** C9. Take two worlds that differ only in the process table: in the
    first no process holds the port, in the second one does and killing it
    succeeds.  In both the locate-and-terminate step reports success, the
    restart returns the same result, and after that step the restart logs
    the same events in both, beginning with the launch. *)
Theorem restart_same_without_process_or_after_kill
    (api_name : string) (config : service_config) (w1 w2 : World) (p : proc) :
  dict_get API_SERVICES api_name = Some config ->
  same_service_view w1 w2 ->
  first_proc_on_port (w_procs w1 (n_procs w1)) (port config) = None ->
  first_proc_on_port (w_procs w2 (n_procs w2)) (port config) = Some p ->
  w_kill w2 (pid p) = None ->
  w_wait w2 (pid p) = None ->
  fst (kill_api_on_port (port config) w1) = Ok true
  /\ fst (kill_api_on_port (port config) w2) = Ok true
  /\ fst (restart_specific_api api_name w1) = fst (restart_specific_api api_name w2)
  /\ exists (evs : list event) (cmd : list string) (flags : popen_flags),
       w_log (snd (restart_specific_api api_name w1))
       = evs ++ [EvPopen cmd flags] ++ [EvProcessIter] ++ w_log w1
       /\ w_log (snd (restart_specific_api api_name w2))
          = evs ++ [EvPopen cmd flags]
              ++ [EvSleep (NInt 2); EvWait (pid p) 5; EvKill (pid p); EvProcessIter]
              ++ w_log w2.
Proof.
  intros Hcfg Hv Hnone Hsome Hkill Hwait.
  pose proof Hv as (Hh & Hp & Ho & He & Hnh & Hnp).
  (* step 1 in the two worlds *)
  pose proof (kill_api_on_port_no_process _ _ Hnone) as Ek1.
  pose proof (kill_api_on_port_killed _ _ _ Hsome Hkill Hwait) as Ek2.
  rewrite Ek1, Ek2.
  split; [reflexivity |]. split; [reflexivity |].
  set (w1' := after_process_iter w1) in *.
  set (w2' := emit (EvSleep (NInt 2)) _) in *.
  assert (Hv' : same_service_view w1' w2').
  { unfold same_service_view. subst w1' w2'. cbn. repeat split; assumption. }
  (* the rest of the workflow *)
  set (rest := process <- start_specific_api api_name ;;
               match process with
               | None => ret false
               | Some _ => success <- verify_api_health api_name ;; ret success
               end).
  assert (Hrest : view_determined rest).
  { subst rest. apply view_bind; [apply view_start_specific_api |].
    intros [h|]; [| apply view_ret].
    apply view_bind; [apply view_verify_api_health | intros b; apply view_ret]. }
  assert (Hr1 : restart_specific_api api_name w1 = rest w1').
  { unfold restart_specific_api. rewrite Hcfg. unfold bind at 1.
    rewrite Ek1. reflexivity. }
  assert (Hr2 : restart_specific_api api_name w2 = rest w2').
  { unfold restart_specific_api. rewrite Hcfg. unfold bind at 1.
    rewrite Ek2. reflexivity. }
  rewrite Hr1, Hr2.
  destruct (Hrest w1' w2' Hv') as (Hres & _ & _).
  split; [exact Hres |].
  (* the launch is the first thing logged *)
  destruct (start_specific_api_log api_name config w1' Hcfg) as (cmd & flags & Hlog1).
  assert (Htail : view_determined
                    (fun w => match fst (start_specific_api api_name w1') with
                              | Ok (Some _) =>
                                  (success <- verify_api_health api_name ;; ret success) w
                              | Ok None => ret false w
                              | Raise e => (Raise e, w)
                              end)).
  { destruct (fst (start_specific_api api_name w1')) as [[h|]|e].
    - apply view_bind; [apply view_verify_api_health | intros b; apply view_ret].
    - apply view_ret.
    - intros wa wb Hab. cbn. split; [reflexivity |]. split; [exact Hab |].
      exists []. split; reflexivity. }
  destruct (view_start_specific_api api_name w1' w2' Hv')
    as (Hsres & Hsv & sevs & Hsl1 & Hsl2).
  destruct (Htail _ _ Hsv) as (_ & _ & evs & Hl1 & Hl2).
  assert (Hsevs : sevs = [EvPopen cmd flags]).
  { rewrite Hlog1 in Hsl1. apply (app_inv_tail (w_log w1')).
    rewrite <- Hsl1. reflexivity. }
  subst sevs.
  exists evs, cmd, flags.
  assert (Hunf : forall w, rest w
            = match fst (start_specific_api api_name w) with
              | Ok (Some _) =>
                  (success <- verify_api_health api_name ;; ret success)
                    (snd (start_specific_api api_name w))
              | Ok None => ret false (snd (start_specific_api api_name w))
              | Raise e => (Raise e, snd (start_specific_api api_name w))
              end).
  { intros w. subst rest. unfold bind at 1.
    destruct (start_specific_api api_name w) as [[[h|]|e] ws]; reflexivity. }
  rewrite (Hunf w1'), (Hunf w2'), <- Hsres.
  cbn beta in Hl1, Hl2. rewrite Hl1, Hl2, Hsl1, Hsl2.
  split; reflexivity.
Qed.

(** *** The nodes and the sent-flags *)

Lemma check_api_health_resets (state : MonitorState) (w : World) :
  exists (state' : MonitorState) (w' : World),
    check_api_health state w = (Ok state', w')
    /\ email_sent state' = false
    /\ recovery_email_sent state' = false
    /\ restart_attempted state' = false
    /\ recovery_status state' = recovery_status state
    /\ n_smtp w' = n_smtp w /\ n_llm w' = n_llm w /\ w_llm w' = w_llm w
    /\ (api_status state' = "healthy"
        <-> is_200 (w_http w (n_http w) (api_url state)) = true)
    /\ List.filter is_mail (w_log w') = List.filter is_mail (w_log w).
Proof.
  unfold check_api_health, bind, try_catch, requests_get, is_200.
  destruct (w_http w (n_http w) (api_url state)) as [status text | e]; cbn [fst snd].
  - destruct (status =? 200); eexists; eexists; (split; [reflexivity |]);
      cbn; repeat split; try reflexivity; try discriminate; auto.
  - eexists; eexists; (split; [reflexivity |]);
      cbn; repeat split; try reflexivity; try discriminate; auto.
Qed.

Lemma agent_analyze_keeps_flags (state state' : MonitorState) (w w' : World) :
  agent_analyze state w = (Ok state', w') -> keeps_flags state state'.
Proof.
  unfold agent_analyze, bind, llm_invoke, list_index, ret, raise.
  destruct (w_llm w (n_llm w)) as [content | e]; [| discriminate].
  destruct (str_split "---" content !! 0%nat); [| discriminate].
  destruct (str_split "---" content !! 1%nat); [| discriminate].
  destruct (str_split "---" content !! 2%nat); [| discriminate].
  intros H. injection H as <- _. repeat split.
Qed.

Lemma review_loop_keeps_flags (stdin : list string) :
  forall (mode : review_mode) (state state' : MonitorState) (rest : list string),
    review_loop stdin mode state = (Ok state', rest) -> keeps_flags state state'.
Proof.
  induction stdin as [|line stdin IH]; intros mode state state' rest H; [discriminate |].
  cbn [review_loop] in H. destruct mode as [| lines |].
  - destruct (String.eqb (strip line) "1"); [injection H as <- _; repeat split |].
    destruct (String.eqb (strip line) "2"); [injection H as <- _; repeat split |].
    destruct (String.eqb (strip line) "3"); [exact (IH _ _ _ _ H) |].
    destruct (String.eqb (strip line) "4"); exact (IH _ _ _ _ H).
  - destruct (String.eqb line "END"); [| exact (IH _ _ _ _ H)].
    destruct (IH _ _ _ _ H) as (H1 & H2 & H3). repeat split; assumption.
  - destruct (IH _ _ _ _ H) as (H1 & H2 & H3). repeat split; assumption.
Qed.

Lemma human_review_keeps_flags (state state' : MonitorState) (w w' : World) :
  human_review state w = (Ok state', w') -> keeps_flags state state'.
Proof.
  unfold human_review.
  destruct (review_loop (w_stdin w) AtMenu state) as [r rest] eqn:E.
  intros H. injection H as -> _. exact (review_loop_keeps_flags _ _ _ _ _ E).
Qed.

Lemma attempt_restart_keeps_sent (state state' : MonitorState) (w w' : World) :
  attempt_restart state w = (Ok state', w') ->
  email_sent state' = email_sent state
  /\ recovery_email_sent state' = recovery_email_sent state.
Proof.
  unfold attempt_restart, bind, ret.
  destruct (lift_result _ w) as [[d|e] w0]; [| discriminate].
  destruct (countdown _ w0) as [[u|e] w1]; [| discriminate].
  destruct (restart_specific_api _ w1) as [[b|e] w2]; [| discriminate].
  intros H. injection H as <- _. split; reflexivity.
Qed.

Lemma send_email_action_monotone (state state' : MonitorState) (w w' : World) :
  send_email_action state w = (Ok state', w') ->
  (email_sent state = true -> email_sent state' = true)
  /\ (recovery_email_sent state = true -> recovery_email_sent state' = true).
Proof.
  unfold send_email_action, try_catch, bind, send_email_alert, ret.
  destruct (is_recovery state && recovery_email_sent state);
    [intros H; injection H as <- _; auto |].
  destruct (negb (is_recovery state) && email_sent state);
    [intros H; injection H as <- _; auto |].
  destruct (String.eqb (human_approval state) "approved").
  - destruct (w_smtp w (n_smtp w)); cbn; intros H; injection H as <- _.
    + cbn. auto.
    + destruct (is_recovery state); cbn; auto.
  - intros H; injection H as <- _. cbn. auto.
Qed.

(** Every node but the probe leaves a flag that is set, set. *)
Lemma node_fn_monotone (n : node) (state state' : MonitorState) (w w' : World) :
  n <> check_health ->
  node_fn n state w = (Ok state', w') ->
  (email_sent state = true -> email_sent state' = true)
  /\ (recovery_email_sent state = true -> recovery_email_sent state' = true).
Proof.
  intros Hn H. destruct n; cbn [node_fn] in H; try congruence.
  - destruct (agent_analyze_keeps_flags _ _ _ _ H) as (-> & -> & _). auto.
  - destruct (human_review_keeps_flags _ _ _ _ H) as (-> & -> & _). auto.
  - exact (send_email_action_monotone _ _ _ _ H).
  - destruct (attempt_restart_keeps_sent _ _ _ _ H) as (-> & ->). auto.
  - destruct (agent_analyze_keeps_flags _ _ _ _ H) as (-> & -> & _). auto.
  - destruct (human_review_keeps_flags _ _ _ _ H) as (-> & -> & _). auto.
  - exact (send_email_action_monotone _ _ _ _ H).
Qed.

(** *** The shape of a run *)

Lemma next_node_rank (n n' : node) (state : MonitorState) :
  next_node n state = Some n' -> (rank n < rank n')%nat.
Proof.
  destruct n; cbn; intros H;
    repeat match type of H with
           | (if ?c then _ else _) = _ => destruct c
           end;
    try discriminate; injection H as <-; cbn; lia.
Qed.

Lemma run_graph_head (fuel : nat) (n : node) (state : MonitorState) (w : World) :
  exists tl : trace, fst (run_graph (S fuel) n state w) = (n, state, w) :: tl.
Proof.
  cbn [run_graph]. destruct (node_fn n state w) as [[state'|e] w'].
  - destruct (next_node n state') as [n'|].
    + destruct (run_graph fuel n' state' w') as [tr r]. eexists. reflexivity.
    + eexists. reflexivity.
  - eexists. reflexivity.
Qed.

(** The nodes of a run have at least the rank of the node it started at. *)
Lemma run_graph_rank (fuel : nat) :
  forall (n : node) (state : MonitorState) (w : World) (m : node),
    In m (trace_nodes (fst (run_graph fuel n state w))) -> (rank n <= rank m)%nat.
Proof.
  induction fuel as [|fuel IH]; intros n state w m Hin; [contradiction |].
  cbn [run_graph] in Hin.
  destruct (node_fn n state w) as [[state'|e] w'].
  - destruct (next_node n state') as [n'|] eqn:Enext.
    + specialize (IH n' state' w' m).
      destruct (run_graph fuel n' state' w') as [tr r].
      cbn in Hin, IH. destruct Hin as [<- | Hin]; [lia |].
      apply next_node_rank in Enext. specialize (IH Hin). lia.
    + cbn in Hin. destruct Hin as [<- | []]. lia.
  - cbn in Hin. destruct Hin as [<- | []]. lia.
Qed.

Lemma node_eqb_eq (a b : node) : node_eqb a b = true <-> a = b.
Proof. destruct a, b; cbn; split; intros H; try reflexivity; discriminate. Qed.

Lemma count_node_absent (x : node) (l : list node) :
  ~ In x l -> count_node x l = O.
Proof.
  unfold count_node. induction l as [|a l IH]; intros Hnot; [reflexivity |].
  cbn. destruct (node_eqb x a) eqn:E.
  - apply node_eqb_eq in E. subst a. exfalso. apply Hnot. left. reflexivity.
  - apply IH. intros Hin. apply Hnot. right. exact Hin.
Qed.

(** No node is entered twice. *)
Lemma run_graph_count (fuel : nat) (x : node) :
  forall (n : node) (state : MonitorState) (w : World),
    (count_node x (trace_nodes (fst (run_graph fuel n state w))) <= 1)%nat.
Proof.
  induction fuel as [|fuel IH]; intros n state w; [cbn; lia |].
  cbn [run_graph].
  destruct (node_fn n state w) as [[state'|e] w'].
  - destruct (next_node n state') as [n'|] eqn:Enext.
    + pose proof (run_graph_rank fuel n' state' w') as Hrank.
      specialize (IH n' state' w').
      destruct (run_graph fuel n' state' w') as [tr r].
      cbn [fst trace_nodes map] in *. unfold count_node in *. cbn [List.filter].
      destruct (node_eqb x n) eqn:E; [| exact IH].
      apply node_eqb_eq in E. subst n.
      assert (Hz : count_node x (trace_nodes tr) = O).
      { apply count_node_absent. intros Hin. apply Hrank in Hin.
        apply next_node_rank in Enext. lia. }
      unfold count_node, trace_nodes in Hz. cbn [length]. rewrite Hz. lia.
    + unfold count_node. cbn. destruct (node_eqb x n); cbn; lia.
  - unfold count_node. cbn. destruct (node_eqb x n); cbn; lia.
Qed.

Lemma flips_cons (flag : MonitorState -> bool) (a b : MonitorState)
    (l : list MonitorState) :
  flips flag (a :: b :: l)
  = ((if negb (flag a) && flag b then 1 else 0) + flips flag (b :: l))%nat.
Proof. reflexivity. Qed.

Lemma flips_monotone (flag : MonitorState -> bool) (l : list MonitorState) :
  monotone flag l ->
  (flips flag l <= 1)%nat
  /\ (forall a tl, l = a :: tl -> flag a = true -> flips flag l = O).
Proof.
  induction l as [|a l IH]; intros Hm.
  - split; [cbn; lia | intros a tl H; discriminate].
  - destruct l as [|b l].
    + split; [cbn; lia | intros; reflexivity].
    + destruct Hm as [Hab Hm]. destruct (IH Hm) as [Hle Hzero].
      rewrite flips_cons. split.
      * destruct (flag a) eqn:Ea; cbn [negb andb]; [lia |].
        destruct (flag b) eqn:Eb; [| lia].
        rewrite (Hzero b l eq_refl Eb). lia.
      * intros a' tl Heq Ha. injection Heq as <- <-.
        rewrite Ha. cbn [negb andb].
        rewrite (Hzero b l eq_refl (Hab Ha)). lia.
Qed.

Lemma run_graph_S (fuel : nat) (n : node) (state : MonitorState) (w : World) :
  run_graph (S fuel) n state w
  = match node_fn n state w with
    | (Raise e, w') => ([(n, state, w)], (Raise e, w'))
    | (Ok state', w') =>
        match next_node n state' with
        | None => ([(n, state, w)], (Ok state', w'))
        | Some n' =>
            let '(tr, r) := run_graph fuel n' state' w' in
            ((n, state, w) :: tr, r)
        end
    end.
Proof. reflexivity. Qed.

Lemma run_states_step (n : node) (state : MonitorState) (w : World)
    (tr : trace) (r : result MonitorState * World) :
  run_states ((n, state, w) :: tr, r) = state :: run_states (tr, r).
Proof. reflexivity. Qed.

Lemma run_states_head (fuel : nat) (n : node) (state : MonitorState) (w : World) :
  exists tl, run_states (run_graph (S fuel) n state w) = state :: tl.
Proof.
  destruct (run_graph_head fuel n state w) as [tl Htl].
  destruct (run_graph (S fuel) n state w) as [tr r]. cbn in Htl. subst tr.
  rewrite run_states_step. eexists. reflexivity.
Qed.

Section Monotone.

Variable flag : MonitorState -> bool.
Hypothesis flag_kept :
  forall (n : node) (state state' : MonitorState) (w w' : World),
    n <> check_health ->
    node_fn n state w = (Ok state', w') ->
    flag state = true -> flag state' = true.

(** Started anywhere after the probe, a run never clears the flag. *)
Lemma run_graph_monotone (fuel : nat) :
  forall (n : node) (state : MonitorState) (w : World),
    n <> check_health ->
    monotone flag (run_states (run_graph fuel n state w)).
Proof.
  induction fuel as [|fuel IH]; intros n state w Hn; [exact I |].
  cbn [run_graph].
  destruct (node_fn n state w) as [[state'|e] w'] eqn:Efn; [| exact I].
  destruct (next_node n state') as [n'|] eqn:Enext.
  - assert (Hn' : n' <> check_health).
    { intros ->. apply next_node_rank in Enext. cbn in Enext. lia. }
    specialize (IH n' state' w' Hn').
    destruct fuel as [|fuel].
    + cbn. exact I.
    + destruct (run_states_head fuel n' state' w') as [tl Htl].
      destruct (run_graph (S fuel) n' state' w') as [tr r].
      rewrite run_states_step, Htl. rewrite Htl in IH.
      split; [| exact IH]. exact (flag_kept n state state' w w' Hn Efn).
  - cbn. split; [| exact I]. exact (flag_kept n state state' w w' Hn Efn).
Qed.

Hypothesis flag_reset :
  forall (state state' : MonitorState) (w w' : World),
    check_api_health state w = (Ok state', w') -> flag state' = false.

(** In a whole pass the flag goes from false to true at most once. *)
Lemma graph_run_flips (s0 : MonitorState) (w : World) :
  (flips flag (run_states (graph_run s0 w)) <= 1)%nat.
Proof.
  unfold graph_run, recursion_limit. rewrite run_graph_S. cbn [node_fn].
  destruct (check_api_health_resets s0 w) as (s1 & w1 & Hc & _).
  rewrite Hc. pose proof (flag_reset _ _ _ _ Hc) as Hf.
  destruct (next_node check_health s1) as [n'|] eqn:Enext.
  - assert (Hn' : n' <> check_health).
    { intros ->. apply next_node_rank in Enext. cbn in Enext. lia. }
    pose proof (run_graph_monotone 24 n' s1 w1 Hn') as Hm.
    destruct (run_states_head 23 n' s1 w1) as [tl Htl].
    destruct (run_graph 24 n' s1 w1) as [tr r].
    rewrite run_states_step, Htl. rewrite Htl in Hm.
    rewrite flips_cons, Hf, andb_false_r.
    pose proof (proj1 (flips_monotone flag (s1 :: tl) Hm)). lia.
  - unfold run_states. cbn [fst snd map app].
    rewrite flips_cons, Hf, andb_false_r. cbn. lia.
Qed.

End Monotone.

(** C6. In one pass of the graph, from whatever state it is started in,
    the alert-sent flag goes from false to true at most once, the
    recovery-sent flag goes from false to true at most once, and the
    restart node is entered at most once. *)
Theorem pass_sends_and_restarts_at_most_once (s0 : MonitorState) (w : World) :
  (flips email_sent (run_states (graph_run s0 w)) <= 1)%nat
  /\ (flips recovery_email_sent (run_states (graph_run s0 w)) <= 1)%nat
  /\ (count_node attempt_restart_node (trace_nodes (fst (graph_run s0 w))) <= 1)%nat.
Proof.
  split; [| split].
  - apply graph_run_flips.
    + intros n st st' w0 w0' Hn Hfn. exact (proj1 (node_fn_monotone _ _ _ _ _ Hn Hfn)).
    + intros st st' w0 w0' Hc.
      destruct (check_api_health_resets st w0) as (s1 & w1 & Hc' & He & _).
      rewrite Hc in Hc'. injection Hc' as -> _. exact He.
  - apply graph_run_flips.
    + intros n st st' w0 w0' Hn Hfn. exact (proj2 (node_fn_monotone _ _ _ _ _ Hn Hfn)).
    + intros st st' w0 w0' Hc.
      destruct (check_api_health_resets st w0) as (s1 & w1 & Hc' & _ & He & _).
      rewrite Hc in Hc'. injection Hc' as -> _. exact He.
  - apply run_graph_count.
Qed.

(** After its first entry the trace of a run only holds later phases. *)
Lemma run_graph_tail (fuel : nat) (n : node) (state : MonitorState) (w : World) :
  exists tl : trace,
    fst (run_graph (S fuel) n state w) = (n, state, w) :: tl
    /\ forall m : node, In m (trace_nodes tl) -> (rank n < rank m)%nat.
Proof.
  rewrite run_graph_S.
  destruct (node_fn n state w) as [[state'|e] w'].
  - destruct (next_node n state') as [n'|] eqn:Enext.
    + pose proof (run_graph_rank fuel n' state' w') as Hrank.
      destruct (run_graph fuel n' state' w') as [tr r].
      exists tr. split; [reflexivity |].
      intros m Hin. apply Hrank in Hin. apply next_node_rank in Enext. lia.
    + exists []. split; [reflexivity | intros m []].
  - exists []. split; [reflexivity | intros m []].
Qed.

Lemma send_email_action_rejected (state : MonitorState) (w : World) :
  email_sent state = false ->
  recovery_email_sent state = false ->
  human_approval state = "rejected" ->
  send_email_action state w
  = (Ok (set_action_taken "Email cancelled by user ❌" state), w).
Proof.
  intros He Hr Ha. unfold send_email_action.
  rewrite He, Hr, Ha, !andb_false_r. reflexivity.
Qed.

Lemma next_after_alert (state : MonitorState) :
  next_node send_alert_email state = Some attempt_restart_node.
Proof. reflexivity. Qed.

(** C7. When the state that reaches the alert send step carries the
    review outcome "rejected", that step makes no mail-delivery call (it
    returns the world as it got it), leaves the alert-sent flag false,
    records the action as cancelled, and the next node the pass enters is
    the restart. *)
Theorem rejected_alert_not_sent_restart_follows
    (s0 : MonitorState) (w : World) (st : MonitorState) (ws : World) :
  In (send_alert_email, st, ws) (fst (graph_run s0 w)) ->
  human_approval st = "rejected" ->
  let st' := set_action_taken "Email cancelled by user ❌" st in
  send_email_action st ws = (Ok st', ws)
  /\ email_sent st = false
  /\ email_sent st' = false
  /\ exists pre post : trace,
       fst (graph_run s0 w)
       = pre ++ (send_alert_email, st, ws) :: (attempt_restart_node, st', ws) :: post.
Proof.
  intros Hin Hrej st'.
  unfold graph_run, recursion_limit in *.
  rewrite run_graph_S in *. cbn [node_fn] in *.
  destruct (check_api_health_resets s0 w) as (s1 & w1 & Hc & He1 & Hr1 & _).
  rewrite Hc in *. cbn [next_node] in *.
  destruct (String.eqb (should_alert s1) "healthy").
  { cbn in Hin. destruct Hin as [Hin | []]. discriminate. }
  rewrite run_graph_S in *. cbn [node_fn] in *.
  destruct (agent_analyze s1 w1) as [[s2|e] w2] eqn:Ea.
  2:{ cbn in Hin. destruct Hin as [Hin | [Hin | []]]; discriminate. }
  destruct (agent_analyze_keeps_flags _ _ _ _ Ea) as (He2 & Hr2 & _).
  cbn [next_node] in *.
  rewrite run_graph_S in *. cbn [node_fn] in *.
  destruct (human_review s2 w2) as [[s3|e] w3] eqn:Eh.
  2:{ cbn in Hin. destruct Hin as [Hin | [Hin | [Hin | []]]]; discriminate. }
  destruct (human_review_keeps_flags _ _ _ _ Eh) as (He3 & Hr3 & _).
  cbn [next_node] in *.
  destruct (run_graph_tail 21 send_alert_email s3 w3) as (tl & Htl & Hrank).
  destruct (run_graph 22 send_alert_email s3 w3) as [tr r] eqn:Erun.
  cbn [fst] in Htl. subst tr. cbn [fst] in Hin |- *.
  assert (Hst : st = s3 /\ ws = w3).
  { destruct Hin as [Hin | [Hin | [Hin | [Hin | Hin]]]]; try discriminate.
    - injection Hin as <- <-. split; reflexivity.
    - exfalso. apply (in_map (fun e => fst (fst e))) in Hin.
      apply Hrank in Hin. cbn in Hin. lia. }
  destruct Hst as [-> ->].
  assert (Hes : email_sent s3 = false) by congruence.
  assert (Hrs : recovery_email_sent s3 = false) by congruence.
  pose proof (send_email_action_rejected s3 w3 Hes Hrs Hrej) as Hsend.
  fold st' in Hsend.
  split; [exact Hsend |]. split; [exact Hes |]. split; [exact Hes |].
  rewrite run_graph_S in Erun. cbn [node_fn] in Erun. rewrite Hsend in Erun.
  rewrite next_after_alert in Erun.
  destruct (run_graph_head 20 attempt_restart_node st' w3) as [tl' Htl'].
  destruct (run_graph 21 attempt_restart_node st' w3) as [tr' r'].
  cbn [fst] in Htl'. subst tr'. cbv beta iota in Erun. injection Erun as <- _.
  exists [(check_health, s0, w); (analyze_alert, s1, w1); (human_review_alert, s2, w2)], tl'.
  reflexivity.
Qed.

(** *** Malformed drafts *)

Lemma agent_analyze_malformed (state : MonitorState) (w : World) (content : string) :
  w_llm w (n_llm w) = Ok content ->
  (length (str_split "---" content) < 3)%nat ->
  exists p : prompt, agent_analyze state w = (Raise index_error, after_llm p w).
Proof.
  intros Hllm Hlen. unfold agent_analyze, bind, llm_invoke, list_index, after_llm.
  eexists. rewrite Hllm. cbn [fst snd].
  destruct (str_split "---" content) as [|a [|b [|c l]]]; cbn in Hlen |- *;
    try reflexivity. lia.
Qed.

Lemma after_llm_mail (p : prompt) (w : World) :
  n_smtp (after_llm p w) = n_smtp w
  /\ List.filter is_mail (w_log (after_llm p w)) = List.filter is_mail (w_log w).
Proof. split; reflexivity. Qed.

(** C2 (as amended). When the language model answers a draft request with
    fewer than three segments, the drafting step raises [IndexError]; a run
    that is at a drafting node then ends at that node with this error and
    makes no mail-delivery call from there on; and a pass whose alert draft
    is the malformed one enters only the probe and the alert drafting node
    and makes no mail-delivery call at all. *)
Theorem malformed_draft_aborts_pass (w : World) (content : string) :
  w_llm w (n_llm w) = Ok content ->
  (length (str_split "---" content) < 3)%nat ->
  (forall state : MonitorState,
      fst (agent_analyze state w) = Raise index_error)
  /\ (forall (fuel : nat) (n : node) (state : MonitorState),
        n = analyze_alert \/ n = analyze_recovery ->
        let run := run_graph (S fuel) n state w in
        fst run = [(n, state, w)]
        /\ fst (snd run) = Raise index_error
        /\ n_smtp (snd (snd run)) = n_smtp w
        /\ List.filter is_mail (w_log (snd (snd run)))
           = List.filter is_mail (w_log w))
  /\ (forall s0 : MonitorState,
        is_200 (w_http w (n_http w) (api_url s0)) = false ->
        let run := graph_run s0 w in
        trace_nodes (fst run) = [check_health; analyze_alert]
        /\ fst (snd run) = Raise index_error
        /\ n_smtp (snd (snd run)) = n_smtp w
        /\ List.filter is_mail (w_log (snd (snd run)))
           = List.filter is_mail (w_log w)).
Proof.
  intros Hllm Hlen.
  assert (Hnode : forall (fuel : nat) (n : node) (state : MonitorState) (w0 : World),
             w_llm w0 (n_llm w0) = Ok content ->
             n = analyze_alert \/ n = analyze_recovery ->
             exists p, run_graph (S fuel) n state w0
                       = ([(n, state, w0)], (Raise index_error, after_llm p w0))).
  { intros fuel n state w0 Hllm0 Hn. rewrite run_graph_S.
    destruct (agent_analyze_malformed state w0 content Hllm0 Hlen) as [p Hp].
    exists p. destruct Hn as [-> | ->]; cbn [node_fn]; rewrite Hp; reflexivity. }
  split; [| split].
  - intros state.
    destruct (agent_analyze_malformed state w content Hllm Hlen) as [p ->].
    reflexivity.
  - intros fuel n state Hn run. subst run.
    destruct (Hnode fuel n state w Hllm Hn) as [p ->]. cbn [fst snd].
    repeat split.
  - intros s0 H200 run. subst run.
    unfold graph_run, recursion_limit. rewrite run_graph_S. cbn [node_fn].
    destruct (check_api_health_resets s0 w)
      as (s1 & w1 & Hc & _ & _ & _ & _ & Hsm & Hnl & Hwl & Hhealthy & Hmail).
    rewrite Hc. cbn [next_node]. unfold should_alert.
    destruct (String.eqb (api_status s1) "healthy") eqn:Est.
    { apply String.eqb_eq in Est. apply Hhealthy in Est. congruence. }
    change (String.eqb "needs_alert" "healthy") with false. cbv iota.
    assert (Hllm1 : w_llm w1 (n_llm w1) = Ok content) by (rewrite Hwl, Hnl; exact Hllm).
    destruct (Hnode 23%nat analyze_alert s1 w1 Hllm1 (or_introl eq_refl)) as [p ->].
    cbn [fst snd trace_nodes map].
    destruct (after_llm_mail p w1) as [H1 H2].
    rewrite H1, H2, Hsm, Hmail. repeat split.
Qed.

(** *** Failures that are caught where they occur *)

(** A failed delivery is recorded in the state, not raised. *)
Lemma send_email_action_never_raises (state : MonitorState) (w : World) :
  exists state' : MonitorState, fst (send_email_action state w) = Ok state'.
Proof.
  unfold send_email_action, try_catch, bind, send_email_alert, ret.
  destruct (is_recovery state && recovery_email_sent state); [eexists; reflexivity |].
  destruct (negb (is_recovery state) && email_sent state); [eexists; reflexivity |].
  destruct (String.eqb (human_approval state) "approved"); [| eexists; reflexivity].
  destruct (w_smtp w (n_smtp w)); eexists; reflexivity.
Qed.

(** Whatever the process table, the launch and the health requests do, the
    restart workflow returns a boolean. *)
Lemma restart_specific_api_never_raises (api_name : string) (w : World) :
  exists b : bool, fst (restart_specific_api api_name w) = Ok b.
Proof.
  unfold restart_specific_api.
  destruct (dict_get API_SERVICES api_name) as [config|] eqn:Hcfg;
    [| eexists; reflexivity].
  unfold bind at 1.
  destruct (kill_api_on_port_never_raises (port config) w) as [k Hk].
  destruct (kill_api_on_port (port config) w) as [rk wk]. cbn in Hk. subst rk.
  unfold bind at 1.
  destruct (start_specific_api_never_raises api_name wk) as [h [Hh _]].
  destruct (start_specific_api api_name wk) as [rs ws]. cbn in Hh. subst rs.
  destruct h as [hp|]; [| eexists; reflexivity].
  destruct (verify_api_health_polls api_name config ws Hcfg) as (b & k' & Hb & _).
  unfold bind, ret. destruct (verify_api_health api_name ws) as [rv wv].
  cbn in Hb. subst rv. eexists. reflexivity.
Qed.

(** The review, like the drafting, is not guarded: at end of console input
    [input()] raises and the node raises with it. *)
Lemma human_review_eof (state : MonitorState) (w : World) :
  w_stdin w = [] ->
  fst (human_review state w) = Raise (Exn EOFError "").
Proof. intros H. unfold human_review. rewrite H. reflexivity. Qed.

(** *** The recursion limit is never reached *)

Lemma rank_bound (n : node) : (rank n <= 7)%nat.
Proof. destruct n; cbn; lia. Qed.

Lemma run_graph_fuel (fuel : nat) :
  forall (n : node) (state : MonitorState) (w : World),
    (8 <= rank n + fuel)%nat ->
    run_graph (S fuel) n state w = run_graph fuel n state w.
Proof.
  induction fuel as [|fuel IH]; intros n state w Hfuel.
  - pose proof (rank_bound n). lia.
  - rewrite (run_graph_S (S fuel)), (run_graph_S fuel).
    destruct (node_fn n state w) as [[state'|e] w']; [| reflexivity].
    destruct (next_node n state') as [n'|] eqn:Enext; [| reflexivity].
    apply next_node_rank in Enext. rewrite IH by lia. reflexivity.
Qed.

(** A pass is the same under every larger limit: the limit of 25 steps
    never cuts it short. *)
Lemma graph_run_any_limit (extra : nat) (s0 : MonitorState) (w : World) :
  run_graph (extra + recursion_limit) check_health s0 w = graph_run s0 w.
Proof.
  induction extra as [|extra IH]; [reflexivity |].
  cbn [Nat.add]. rewrite run_graph_fuel; [exact IH |].
  unfold recursion_limit. cbn [rank]. lia.
Qed.

(** *** What escapes the pass, and the configuration readers *)

Lemma bind_raises {A B} (m : M A) (k : A -> M B) (w : World) (e : exn) :
  fst (m w) = Raise e -> fst (bind m k w) = Raise e.
Proof.
  unfold bind. destruct (m w) as [[a|e'] w']; cbn; intros H;
    [discriminate | injection H as ->; reflexivity].
Qed.

(** An exception of a pass ends the round and the whole loop. *)
Lemma run_monitoring_raises (ticks : nat) (w : World) (e : exn) (interval : Z) :
  py_int int_of_str (monitoring_get "check_interval" (VInt 15)) = Ok interval ->
  fst (for_each_service API_SERVICES w) = Raise e ->
  fst (run_monitoring (S ticks) w) = Raise e.
Proof.
  intros Hint Hpass. unfold run_monitoring. rewrite Hint.
  unfold bind at 1. cbn [lift_result ret monitoring_loop].
  apply bind_raises. exact Hpass.
Qed.

(** A restart delay that [int()] refuses makes the restart node raise
    before anything is done. *)
Lemma attempt_restart_bad_delay (state : MonitorState) (w : World) (e : exn) :
  py_int int_of_str (monitoring_get "restart_delay" (VInt 30)) = Raise e ->
  attempt_restart state w = (Raise e, w).
Proof. intros H. unfold attempt_restart. rewrite H. reflexivity. Qed.

(** A check interval that [int()] refuses makes the main loop raise before
    its first round. *)
Lemma run_monitoring_bad_interval (ticks : nat) (w : World) (e : exn) :
  py_int int_of_str (monitoring_get "check_interval" (VInt 15)) = Raise e ->
  run_monitoring ticks w = (Raise e, w).
Proof. intros H. unfold run_monitoring. rewrite H. reflexivity. Qed.

(** The restart manager, in contrast, falls back to its defaults. *)
Lemma verify_max_attempts_fallback (v : pyval) :
  MONITORING_CONFIG !! "health_check_attempts" = Some v ->
  is_raise (py_int int_of_str v) = true ->
  verify_max_attempts = 10.
Proof.
  intros Hk Hv. unfold verify_max_attempts.
  destruct v; try (rewrite (merged_lookup_set _ _ Hk) by discriminate);
    try (rewrite merged_lookup_default by (right; exact Hk));
    unfold _to_int; try reflexivity;
    destruct (py_int int_of_str _); try discriminate; reflexivity.
Qed.

Lemma verify_wait_time_fallback (v : pyval) :
  MONITORING_CONFIG !! "health_check_wait" = Some v ->
  v <> VNone ->
  is_raise (py_float float_of_str v) = true ->
  verify_wait_time = NInt 3.
Proof.
  intros Hk Hn Hv. unfold verify_wait_time.
  rewrite (merged_lookup_set _ _ Hk) by exact Hn.
  unfold _to_float. destruct (py_float float_of_str v); [discriminate | reflexivity].
Qed.

Lemma verify_timeout_fallback (v : pyval) :
  MONITORING_CONFIG !! "health_check_timeout" = Some v ->
  v <> VNone ->
  is_raise (py_float float_of_str v) = true ->
  verify_timeout = NInt 5.
Proof.
  intros Hk Hn Hv. unfold verify_timeout.
  rewrite (merged_lookup_set _ _ Hk) by exact Hn.
  unfold _to_float. destruct (py_float float_of_str v); [discriminate | reflexivity].
Qed.

Lemma verify_params_missing :
  MONITORING_CONFIG !! "health_check_attempts" = None ->
  MONITORING_CONFIG !! "health_check_wait" = None ->
  MONITORING_CONFIG !! "health_check_timeout" = None ->
  verify_max_attempts = 10
  /\ verify_wait_time = NFloat (FFin 3)
  /\ verify_timeout = NFloat (FFin 5).
Proof.
  intros Ha Hw Ht. unfold verify_max_attempts, verify_wait_time, verify_timeout.
  rewrite !merged_lookup_default by (left; assumption).
  repeat split.
Qed.

(** ** Further properties of the monitor graph *)

Lemma next_node_succ (n n' : node) (state : MonitorState) :
  next_node n state = Some n' -> phases_from n = n :: phases_from n'.
Proof.
  destruct n; cbn [next_node]; intros H;
    repeat match type of H with
           | (if ?c then _ else _) = _ => destruct c
           end;
    try discriminate; injection H as <-; reflexivity.
Qed.

Lemma phases_from_head (n : node) : exists rest, phases_from n = n :: rest.
Proof. destruct n; eexists; reflexivity. Qed.

Lemma run_graph_phases (fuel : nat) :
  forall (n : node) (state : MonitorState) (w : World),
    exists rest : list node,
      phases_from n = trace_nodes (fst (run_graph fuel n state w)) ++ rest.
Proof.
  induction fuel as [|fuel IH]; intros n state w.
  - exists (phases_from n). reflexivity.
  - rewrite run_graph_S.
    destruct (node_fn n state w) as [[state'|e] w'].
    + destruct (next_node n state') as [n'|] eqn:Enext.
      * destruct (IH n' state' w') as [rest Hrest].
        destruct (run_graph fuel n' state' w') as [tr r].
        exists rest. rewrite (next_node_succ _ _ _ Enext). cbn [fst] in *.
        cbn [trace_nodes map fst app]. f_equal. exact Hrest.
      * destruct (phases_from_head n) as [rest ->]. exists rest. reflexivity.
    + destruct (phases_from_head n) as [rest ->]. exists rest. reflexivity.
Qed.

(** X1. The nodes a pass enters are an initial stretch of the fixed phase
    order, beginning with the probe: no phase is skipped, repeated or taken
    out of order, however the collaborators answer. *)
Theorem pass_follows_phase_order (s0 : MonitorState) (w : World) :
  exists (entered rest : list node),
    trace_nodes (fst (graph_run s0 w)) = check_health :: entered
    /\ phase_order = check_health :: entered ++ rest.
Proof.
  destruct (run_graph_phases recursion_limit check_health s0 w) as [rest Hrest].
  destruct (run_graph_head 24 check_health s0 w) as [tl Htl].
  unfold graph_run. change recursion_limit with 25%nat in *.
  rewrite Htl in *. cbn [trace_nodes map fst] in *.
  exists (map (fun e => fst (fst e)) tl), rest.
  split; [reflexivity | exact Hrest].
Qed.

(** A pass over a service that answers 200: one node, one request. *)
Lemma graph_run_healthy (s0 : MonitorState) (w : World) :
  is_200 (w_http w (n_http w) (api_url s0)) = true ->
  exists st' : MonitorState,
    graph_run s0 w
    = ([(check_health, s0, w)],
       (Ok st', snd (requests_get (api_url s0) (NInt 5) w)))
    /\ api_status st' = "healthy".
Proof.
  intros H200. unfold graph_run, recursion_limit. rewrite run_graph_S.
  cbn [node_fn]. unfold is_200 in H200.
  unfold check_api_health, bind, try_catch, requests_get, ret in *.
  destruct (w_http w (n_http w) (api_url s0)) as [status text | e]; [| discriminate].
  cbn [fst snd]. rewrite H200. cbn [fst snd]. eexists. split; reflexivity.
Qed.

(** X2. When the probe is answered with status 200 the pass consists of the
    probe alone: it returns a state marked healthy, and all it did to the
    world is the one health request (timeout 5) – no draft, no console
    input, no mail, no process lookup, no launch. *)
Theorem healthy_pass_only_probes (s0 : MonitorState) (w : World) :
  is_200 (w_http w (n_http w) (api_url s0)) = true ->
  let run := graph_run s0 w in
  let w' := snd (snd run) in
  trace_nodes (fst run) = [check_health]
  /\ (exists st', fst (snd run) = Ok st' /\ api_status st' = "healthy")
  /\ w_log w' = EvHttpGet (api_url s0) (NInt 5) :: w_log w
  /\ n_llm w' = n_llm w /\ n_smtp w' = n_smtp w
  /\ n_procs w' = n_procs w /\ n_popen w' = n_popen w
  /\ w_stdin w' = w_stdin w.
Proof.
  intros H200 run w'. subst run w'.
  destruct (graph_run_healthy s0 w H200) as (st' & -> & Hst).
  cbn [fst snd trace_nodes map].
  split; [reflexivity |]. split; [exists st'; split; [reflexivity | exact Hst] |].
  unfold requests_get. destruct (w_http w (n_http w) (api_url s0)); cbn; repeat split.
Qed.

Lemma agent_analyze_keeps_progress (state state' : MonitorState) (w w' : World) :
  agent_analyze state w = (Ok state', w') -> keeps_progress state state'.
Proof.
  unfold agent_analyze, bind, llm_invoke, list_index, ret, raise.
  destruct (w_llm w (n_llm w)) as [content | e]; [| discriminate].
  destruct (str_split "---" content !! 0%nat); [| discriminate].
  destruct (str_split "---" content !! 1%nat); [| discriminate].
  destruct (str_split "---" content !! 2%nat); [| discriminate].
  intros H. injection H as <- _. repeat split.
Qed.

Lemma review_loop_keeps_progress (stdin : list string) :
  forall (mode : review_mode) (state state' : MonitorState) (rest : list string),
    review_loop stdin mode state = (Ok state', rest) -> keeps_progress state state'.
Proof.
  induction stdin as [|line stdin IH]; intros mode state state' rest H; [discriminate |].
  cbn [review_loop] in H. destruct mode as [| lines |].
  - destruct (String.eqb (strip line) "1"); [injection H as <- _; repeat split |].
    destruct (String.eqb (strip line) "2"); [injection H as <- _; repeat split |].
    destruct (String.eqb (strip line) "3"); [exact (IH _ _ _ _ H) |].
    destruct (String.eqb (strip line) "4"); exact (IH _ _ _ _ H).
  - destruct (String.eqb line "END"); [| exact (IH _ _ _ _ H)].
    destruct (IH _ _ _ _ H) as (H1 & H2 & H3). repeat split; assumption.
  - destruct (IH _ _ _ _ H) as (H1 & H2 & H3). repeat split; assumption.
Qed.

Lemma human_review_keeps_progress (state state' : MonitorState) (w w' : World) :
  human_review state w = (Ok state', w') -> keeps_progress state state'.
Proof.
  unfold human_review.
  destruct (review_loop (w_stdin w) AtMenu state) as [r rest] eqn:E.
  intros H. injection H as -> _. exact (review_loop_keeps_progress _ _ _ _ _ E).
Qed.

Lemma send_email_action_keeps_progress (state state' : MonitorState) (w w' : World) :
  send_email_action state w = (Ok state', w') -> keeps_progress state state'.
Proof.
  unfold send_email_action, try_catch, bind, send_email_alert, ret.
  destruct (is_recovery state && recovery_email_sent state);
    [intros H; injection H as <- _; repeat split |].
  destruct (negb (is_recovery state) && email_sent state);
    [intros H; injection H as <- _; repeat split |].
  destruct (String.eqb (human_approval state) "approved").
  - destruct (w_smtp w (n_smtp w)); cbn; intros H; injection H as <- _.
    + repeat split.
    + destruct (is_recovery state); repeat split.
  - intros H; injection H as <- _. repeat split.
Qed.

(** What the restart node leaves in the state when it returns. *)
Lemma attempt_restart_result (state state' : MonitorState) (w w' : World) :
  attempt_restart state w = (Ok state', w') ->
  restart_attempted state' = true
  /\ api_status state' = api_status state
  /\ (recovery_status state' = "success" \/ recovery_status state' = "failed").
Proof.
  unfold attempt_restart, bind, ret.
  destruct (lift_result _ w) as [[d|e] w0]; [| discriminate].
  destruct (countdown _ w0) as [[u|e] w1]; [| discriminate].
  destruct (restart_specific_api _ w1) as [[b|e] w2]; [| discriminate].
  intros H. injection H as <- _. cbn. destruct b; auto.
Qed.

(** X3. A pass that returns has ended in one of three ways: after the probe
    alone with the service healthy; after the restart node with the recovery
    marked failed (the three alert phases and the restart were run, no
    recovery phase was); or after all eight phases with the recovery marked
    successful.  In particular a recovery notification is drafted only after
    a restart of the same pass succeeded. *)
Theorem pass_ends_in_one_of_three_ways
    (s0 : MonitorState) (w : World) (st : MonitorState) :
  fst (snd (graph_run s0 w)) = Ok st ->
  (trace_nodes (fst (graph_run s0 w)) = [check_health]
   /\ api_status st = "healthy")
  \/ (trace_nodes (fst (graph_run s0 w))
      = [check_health; analyze_alert; human_review_alert; send_alert_email;
         attempt_restart_node]
      /\ api_status st <> "healthy"
      /\ restart_attempted st = true /\ recovery_status st = "failed")
  \/ (trace_nodes (fst (graph_run s0 w)) = phase_order
      /\ api_status st <> "healthy"
      /\ restart_attempted st = true /\ recovery_status st = "success").
Proof.
  unfold graph_run, recursion_limit.
  rewrite run_graph_S. cbn [node_fn].
  destruct (check_api_health s0 w) as [[s1|e] w1] eqn:E1; [| discriminate].
  cbn [next_node]. unfold should_alert.
  destruct (String.eqb (api_status s1) "healthy") eqn:Eh.
  { change (String.eqb "healthy" "healthy") with true. cbv iota. cbn.
    intros H. injection H as <-. left. split; [reflexivity |].
    apply String.eqb_eq. exact Eh. }
  change (String.eqb "needs_alert" "healthy") with false. cbv iota.
  apply String.eqb_neq in Eh.
  rewrite run_graph_S. cbn [node_fn].
  destruct (agent_analyze s1 w1) as [[s2|e] w2] eqn:E2; [| discriminate].
  destruct (agent_analyze_keeps_progress _ _ _ _ E2) as (Ha2 & _ & _).
  cbn [next_node]. rewrite run_graph_S. cbn [node_fn].
  destruct (human_review s2 w2) as [[s3|e] w3] eqn:E3; [| discriminate].
  destruct (human_review_keeps_progress _ _ _ _ E3) as (Ha3 & _ & _).
  cbn [next_node]. rewrite run_graph_S. cbn [node_fn].
  destruct (send_email_action s3 w3) as [[s4|e] w4] eqn:E4; [| discriminate].
  destruct (send_email_action_keeps_progress _ _ _ _ E4) as (Ha4 & _ & _).
  rewrite next_after_alert. rewrite run_graph_S. cbn [node_fn].
  destruct (attempt_restart s4 w4) as [[s5|e] w5] eqn:E5; [| discriminate].
  destruct (attempt_restart_result _ _ _ _ E5) as (Hr5 & Ha5 & Hs5).
  assert (Hne5 : api_status s5 <> "healthy") by congruence.
  cbn [next_node]. unfold check_recovery, is_recovery.
  destruct (String.eqb (recovery_status s5) "success") eqn:Es.
  2:{ change (String.eqb "failed" "recovered") with false. cbv iota. cbn.
      intros H. injection H as <-. right. left.
      split; [reflexivity |]. split; [exact Hne5 |]. split; [exact Hr5 |].
      destruct Hs5 as [Hs5 | Hs5]; [| exact Hs5].
      rewrite Hs5 in Es. discriminate. }
  change (String.eqb "recovered" "recovered") with true. cbv iota.
  apply String.eqb_eq in Es.
  rewrite run_graph_S. cbn [node_fn].
  destruct (agent_analyze s5 w5) as [[s6|e] w6] eqn:E6; [| discriminate].
  destruct (agent_analyze_keeps_progress _ _ _ _ E6) as (Ha6 & Hr6 & Hs6).
  cbn [next_node]. rewrite run_graph_S. cbn [node_fn].
  destruct (human_review s6 w6) as [[s7|e] w7] eqn:E7; [| discriminate].
  destruct (human_review_keeps_progress _ _ _ _ E7) as (Ha7 & Hr7 & Hs7).
  cbn [next_node]. rewrite run_graph_S. cbn [node_fn].
  destruct (send_email_action s7 w7) as [[s8|e] w8] eqn:E8; [| discriminate].
  destruct (send_email_action_keeps_progress _ _ _ _ E8) as (Ha8 & Hr8 & Hs8).
  cbn [next_node]. cbn.
  intros H. injection H as <-. right. right.
  split; [reflexivity |]. repeat split; congruence.
Qed.

(** *** Mail-delivery calls of a pass *)

Lemma no_mail_ret {A} (a : A) : sends_no_mail (ret a).
Proof. intros w. reflexivity. Qed.

Lemma no_mail_raise {A} (e : exn) : sends_no_mail (@raise A e).
Proof. intros w. reflexivity. Qed.

Lemma no_mail_bind {A B} (m : M A) (k : A -> M B) :
  sends_no_mail m -> (forall a, sends_no_mail (k a)) -> sends_no_mail (bind m k).
Proof.
  intros Hm Hk w. unfold bind. specialize (Hm w).
  destruct (m w) as [[a|e] w']; cbn [snd] in *; [| exact Hm].
  rewrite (Hk a w'). exact Hm.
Qed.

Lemma no_mail_try_catch {A} (m : M A) (h : exn -> M A) :
  sends_no_mail m -> (forall e, sends_no_mail (h e)) -> sends_no_mail (try_catch m h).
Proof.
  intros Hm Hh w. unfold try_catch. specialize (Hm w).
  destruct (m w) as [[a|e] w']; cbn [snd] in *; [exact Hm |].
  rewrite (Hh e w'). exact Hm.
Qed.

Lemma no_mail_requests_get (url : string) (timeout : pynum) :
  sends_no_mail (requests_get url timeout).
Proof. intros w. unfold requests_get. destruct (w_http _ _ _); reflexivity. Qed.

Lemma no_mail_time_sleep (secs : pynum) : sends_no_mail (time_sleep secs).
Proof. intros w. unfold time_sleep. destruct (sleep_check secs); reflexivity. Qed.

Lemma no_mail_llm_invoke (p : prompt) : sends_no_mail (llm_invoke p).
Proof. intros w. reflexivity. Qed.

Lemma no_mail_process_iter : sends_no_mail process_iter.
Proof. intros w. reflexivity. Qed.

Lemma no_mail_proc_kill (p : proc) : sends_no_mail (proc_kill p).
Proof. intros w. unfold proc_kill. destruct (w_kill _ _); reflexivity. Qed.

Lemma no_mail_proc_wait (p : proc) (t : Z) : sends_no_mail (proc_wait p t).
Proof. intros w. unfold proc_wait. destruct (w_wait _ _); reflexivity. Qed.

Lemma no_mail_popen (cmd : list string) (flags : popen_flags) :
  sends_no_mail (popen cmd flags).
Proof. intros w. reflexivity. Qed.

Lemma no_mail_sys_executable : sends_no_mail sys_executable.
Proof. intros w. reflexivity. Qed.

Lemma no_mail_os_name_is_nt : sends_no_mail os_name_is_nt.
Proof. intros w. reflexivity. Qed.

Lemma no_mail_lift_result {A} (r : result A) : sends_no_mail (lift_result r).
Proof. destruct r; intros w; reflexivity. Qed.

Lemma no_mail_list_index (parts : list string) (i : nat) :
  sends_no_mail (list_index parts i).
Proof. intros w. unfold list_index. destruct (parts !! i); reflexivity. Qed.

Create HintDb nomail discriminated.
Hint Resolve no_mail_ret no_mail_raise no_mail_requests_get no_mail_time_sleep
  no_mail_llm_invoke no_mail_process_iter no_mail_proc_kill no_mail_proc_wait
  no_mail_popen no_mail_sys_executable no_mail_os_name_is_nt no_mail_lift_result
  no_mail_list_index : nomail.

Ltac no_mail_step :=
  first [ solve [ auto with nomail ]
        | apply no_mail_bind; [| intros ?]
        | apply no_mail_try_catch; [| intros ?] ].

Lemma no_mail_poll_loop (url : string) (wait_time timeout : pynum) (n : nat) :
  sends_no_mail (poll_loop url wait_time timeout n).
Proof.
  induction n as [|n IH]; cbn [poll_loop]; [apply no_mail_ret |].
  apply no_mail_bind.
  - unfold poll_once. repeat no_mail_step.
  - intros [|]; [apply no_mail_ret | exact IH].
Qed.

Lemma no_mail_countdown (n : nat) : sends_no_mail (countdown n).
Proof.
  induction n as [|n IH]; cbn [countdown]; [apply no_mail_ret |].
  apply no_mail_bind; [apply no_mail_time_sleep | intros _; exact IH].
Qed.

Lemma no_mail_restart_specific_api (api_name : string) :
  sends_no_mail (restart_specific_api api_name).
Proof.
  unfold restart_specific_api.
  destruct (dict_get API_SERVICES api_name) as [config|] eqn:Hcfg; [| apply no_mail_ret].
  apply no_mail_bind.
  { unfold kill_api_on_port, find_process_on_port.
    apply no_mail_bind; [repeat no_mail_step |].
    intros [p|]; repeat no_mail_step. }
  intros _. apply no_mail_bind.
  { unfold start_specific_api. rewrite Hcfg. repeat no_mail_step. }
  intros [h|]; [| apply no_mail_ret].
  apply no_mail_bind; [| intros b; apply no_mail_ret].
  unfold verify_api_health. rewrite Hcfg. apply no_mail_poll_loop.
Qed.

Lemma no_mail_check_api_health (state : MonitorState) :
  sends_no_mail (check_api_health state).
Proof.
  unfold check_api_health. apply no_mail_bind; [| intros st; apply no_mail_ret].
  apply no_mail_try_catch; [| intros e; apply no_mail_ret].
  apply no_mail_bind; [apply no_mail_requests_get |].
  intros r. destruct (fst r =? 200); apply no_mail_ret.
Qed.

Lemma no_mail_agent_analyze (state : MonitorState) :
  sends_no_mail (agent_analyze state).
Proof. unfold agent_analyze. repeat no_mail_step. Qed.

Lemma no_mail_human_review (state : MonitorState) :
  sends_no_mail (human_review state).
Proof.
  intros w. unfold human_review.
  destruct (review_loop (w_stdin w) AtMenu state). reflexivity.
Qed.

Lemma no_mail_attempt_restart (state : MonitorState) :
  sends_no_mail (attempt_restart state).
Proof.
  unfold attempt_restart.
  apply no_mail_bind; [apply no_mail_lift_result | intros d].
  apply no_mail_bind; [apply no_mail_countdown | intros _].
  apply no_mail_bind; [apply no_mail_restart_specific_api | intros b].
  apply no_mail_ret.
Qed.

(** The send step makes at most one delivery call. *)
Lemma send_email_action_one_call (state : MonitorState) (w : World) :
  (count_events is_mail (w_log (snd (send_email_action state w)))
   <= S (count_events is_mail (w_log w)))%nat.
Proof.
  unfold send_email_action, try_catch, bind, send_email_alert, ret, count_events.
  destruct (is_recovery state && recovery_email_sent state); [cbn; lia |].
  destruct (negb (is_recovery state) && email_sent state); [cbn; lia |].
  destruct (String.eqb (human_approval state) "approved"); [| cbn; lia].
  destruct (w_smtp w (n_smtp w)); cbn; lia.
Qed.

Lemma node_fn_mail (n : node) (state : MonitorState) (w : World) :
  (count_events is_mail (w_log (snd (node_fn n state w)))
   <= count_events is_mail (w_log w)
      + (count_node send_alert_email [n] + count_node send_recovery_email [n]))%nat.
Proof.
  destruct n; cbn [node_fn];
    try (pose proof (send_email_action_one_call state w); cbn; lia).
  - rewrite no_mail_check_api_health. cbn. lia.
  - rewrite no_mail_agent_analyze. cbn. lia.
  - rewrite no_mail_human_review. cbn. lia.
  - rewrite no_mail_attempt_restart. cbn. lia.
  - rewrite no_mail_agent_analyze. cbn. lia.
  - rewrite no_mail_human_review. cbn. lia.
Qed.

Lemma count_node_cons (x n : node) (l : list node) :
  count_node x (n :: l) = (count_node x [n] + count_node x l)%nat.
Proof. unfold count_node. cbn. destruct (node_eqb x n); reflexivity. Qed.

Lemma run_graph_mail (fuel : nat) :
  forall (n : node) (state : MonitorState) (w : World),
    let run := run_graph fuel n state w in
    (count_events is_mail (w_log (snd (snd run)))
     <= count_events is_mail (w_log w)
        + (count_node send_alert_email (trace_nodes (fst run))
           + count_node send_recovery_email (trace_nodes (fst run))))%nat.
Proof.
  induction fuel as [|fuel IH]; intros n state w; [cbn; lia |].
  cbn zeta. rewrite run_graph_S.
  pose proof (node_fn_mail n state w) as Hn.
  destruct (node_fn n state w) as [[state'|e] w']; cbn [snd] in Hn.
  - destruct (next_node n state') as [n'|].
    + specialize (IH n' state' w'). cbn zeta in IH.
      destruct (run_graph fuel n' state' w') as [tr [r wf]].
      cbn [fst snd trace_nodes map] in *.
      rewrite (count_node_cons send_alert_email n (map _ tr)),
        (count_node_cons send_recovery_email n (map _ tr)). lia.
    + cbn [fst snd trace_nodes map]. exact Hn.
  - cbn [fst snd trace_nodes map]. exact Hn.
Qed.

(** X4. A pass makes at most two mail-delivery calls, whatever the
    collaborators answer and whatever state it is started in: only the two
    send nodes call the mail gateway, each is entered at most once, and each
    makes at most one call. *)
Theorem pass_makes_at_most_two_deliveries (s0 : MonitorState) (w : World) :
  (count_events is_mail (w_log (snd (snd (graph_run s0 w))))
   <= count_events is_mail (w_log w) + 2)%nat.
Proof.
  pose proof (run_graph_mail recursion_limit check_health s0 w) as H.
  pose proof (run_graph_count recursion_limit send_alert_email check_health s0 w).
  pose proof (run_graph_count recursion_limit send_recovery_email check_health s0 w).
  cbn zeta in H. unfold graph_run. lia.
Qed.

(** *** The operator console *)

Lemma review_only_edits_refl (st : MonitorState) : review_only_edits st st.
Proof. repeat split. Qed.

Lemma review_only_edits_trans (a b c : MonitorState) :
  review_only_edits a b -> review_only_edits b c -> review_only_edits a c.
Proof.
  unfold review_only_edits. intros H1 H2.
  repeat match goal with H : _ /\ _ |- _ => destruct H end.
  repeat split; congruence.
Qed.

Lemma review_loop_spec (stdin : list string) :
  forall (mode : review_mode) (state : MonitorState),
    match review_loop stdin mode state with
    | (Ok state', rest) =>
        (human_approval state' = "approved" \/ human_approval state' = "rejected")
        /\ review_only_edits state state'
        /\ exists used : list string, used <> [] /\ stdin = used ++ rest
    | (Raise e, rest) => e = Exn EOFError "" /\ rest = []
    end.
Proof.
  induction stdin as [|line stdin IH]; intros mode state; [cbn; auto |].
  assert (Hrec : forall mode' state',
             review_only_edits state state' ->
             match review_loop stdin mode' state' with
             | (Ok state'', rest) =>
                 (human_approval state'' = "approved"
                  \/ human_approval state'' = "rejected")
                 /\ review_only_edits state state''
                 /\ exists used : list string,
                      used <> [] /\ line :: stdin = used ++ rest
             | (Raise e, rest) => e = Exn EOFError "" /\ rest = []
             end).
  { intros mode' state' Hedit. specialize (IH mode' state').
    destruct (review_loop stdin mode' state') as [[state''|e] rest]; [| exact IH].
    destruct IH as (Hdec & Hed & used & _ & ->).
    split; [exact Hdec |]. split; [exact (review_only_edits_trans _ _ _ Hedit Hed) |].
    exists (line :: used). split; [discriminate | reflexivity]. }
  cbn [review_loop]. destruct mode as [| lines |].
  - destruct (String.eqb (strip line) "1").
    { split; [left; reflexivity |]. split; [repeat split |].
      exists [line]. split; [discriminate | reflexivity]. }
    destruct (String.eqb (strip line) "2").
    { split; [right; reflexivity |]. split; [repeat split |].
      exists [line]. split; [discriminate | reflexivity]. }
    destruct (String.eqb (strip line) "3"); [apply Hrec, review_only_edits_refl |].
    destruct (String.eqb (strip line) "4"); apply Hrec, review_only_edits_refl.
  - destruct (String.eqb line "END"); apply Hrec; repeat split.
  - apply Hrec. repeat split.
Qed.

(** X5. The review step either returns with the decision "approved" or
    "rejected" – having read at least one console line and changed nothing
    in the state but subject, body and decision – or it raises [EOFError]
    with the console input used up.  Either way it calls no collaborator:
    the event log and all call counters are as before. *)
Theorem human_review_decides_or_hits_eof (state : MonitorState) (w : World) :
  let w' := snd (human_review state w) in
  match fst (human_review state w) with
  | Ok state' =>
      (human_approval state' = "approved" \/ human_approval state' = "rejected")
      /\ review_only_edits state state'
      /\ exists used : list string, used <> [] /\ w_stdin w = used ++ w_stdin w'
  | Raise e => e = Exn EOFError "" /\ w_stdin w' = []
  end
  /\ w_log w' = w_log w
  /\ n_http w' = n_http w /\ n_llm w' = n_llm w /\ n_smtp w' = n_smtp w
  /\ n_procs w' = n_procs w /\ n_popen w' = n_popen w.
Proof.
  unfold human_review. pose proof (review_loop_spec (w_stdin w) AtMenu state) as H.
  destruct (review_loop (w_stdin w) AtMenu state) as [[state'|e] rest];
    cbn [fst snd]; (split; [exact H | repeat split]).
Qed.

Lemma review_loop_body (lines : list string) :
  forall (acc tail : list string) (state : MonitorState),
    Forall (fun l => l <> "END") lines ->
    review_loop (lines ++ "END" :: tail) (InBody acc) state
    = review_loop tail AtMenu (set_email_body (str_join nl (acc ++ lines)) state).
Proof.
  induction lines as [|l lines IH]; intros acc tail state Hall.
  - cbn. rewrite app_nil_r. reflexivity.
  - inversion Hall as [|? ? Hl Hrest]; subst.
    cbn [app review_loop].
    destruct (String.eqb l "END") eqn:E; [apply String.eqb_eq in E; contradiction |].
    rewrite (IH _ _ _ Hrest), <- app_assoc. reflexivity.
Qed.

(** X6. Editing the body at the console: after the choice 3, the lines
    typed up to the line END, and the choice 1, the review returns approved
    with the body replaced by those lines joined by newlines, everything
    else in the state untouched, and the console lines after the 1 unread. *)
Theorem human_review_edit_body_then_approve
    (state : MonitorState) (w : World) (lines rest : list string) :
  Forall (fun l => l <> "END") lines ->
  w_stdin w = "3" :: lines ++ "END" :: "1" :: rest ->
  fst (human_review state w)
  = Ok (set_human_approval "approved" (set_email_body (str_join nl lines) state))
  /\ w_stdin (snd (human_review state w)) = rest.
Proof.
  intros Hall Hin. unfold human_review. rewrite Hin.
  cbn [review_loop].
  change (String.eqb (strip "3") "1") with false.
  change (String.eqb (strip "3") "2") with false.
  change (String.eqb (strip "3") "3") with true. cbv iota.
  rewrite (review_loop_body lines [] _ state Hall).
  cbn [app review_loop].
  change (String.eqb (strip "1") "1") with true. cbv iota.
  split; reflexivity.
Qed.

(** *** The send step *)

(** X7. Sending is idempotent: once the send step has set the sent-flag of
    its notification kind, running it again on the state and world it
    returned does nothing – no second delivery call, the state unchanged. *)
Theorem send_email_action_twice
    (state state1 : MonitorState) (w w1 : World) :
  send_email_action state w = (Ok state1, w1) ->
  (if is_recovery state then recovery_email_sent state1 else email_sent state1)
  = true ->
  send_email_action state1 w1 = (Ok state1, w1).
Proof.
  intros Hsend Hflag.
  destruct (send_email_action_keeps_progress _ _ _ _ Hsend) as (_ & _ & Hrs).
  assert (Hrec : is_recovery state1 = is_recovery state)
    by (unfold is_recovery; rewrite Hrs; reflexivity).
  unfold send_email_action at 1. rewrite Hrec.
  destruct (is_recovery state); rewrite Hflag; reflexivity.
Qed.

(** X8. A sent-flag is set only by an approved and successful delivery: if
    the send step turns the flag of its notification kind from false to
    true, then the decision was "approved", the SMTP exchange of that call
    succeeded, and exactly that one mail, with the state's body and subject,
    was handed over. *)
Theorem sent_flag_means_approved_and_delivered
    (state state1 : MonitorState) (w w1 : World) :
  send_email_action state w = (Ok state1, w1) ->
  (if is_recovery state then recovery_email_sent state else email_sent state)
  = false ->
  (if is_recovery state then recovery_email_sent state1 else email_sent state1)
  = true ->
  human_approval state = "approved"
  /\ w_smtp w (n_smtp w) = None
  /\ w_log w1 = EvMail (email_body state) (email_subject state) :: w_log w
  /\ action_taken state1 = "Email sent successfully ✅".
Proof.
  unfold send_email_action, try_catch, bind, send_email_alert, ret.
  destruct (is_recovery state) eqn:Er; cbn [andb negb];
    intros Hsend Hold Hnew; rewrite Hold in Hsend;
    (destruct (String.eqb (human_approval state) "approved") eqn:Ea;
     [ apply String.eqb_eq in Ea;
       destruct (w_smtp w (n_smtp w)) as [e|]; cbn in Hsend;
       injection Hsend as <- <-; cbn in Hnew |- *;
       [ congruence | repeat split; assumption ]
     | injection Hsend as <- <-; cbn in Hnew; congruence ]).
Qed.

(** ** Further properties of the restart manager *)

Lemma conn_on_port_spec (port : Z) (conns : list conn) :
  existsb (conn_on_port port) conns = true
  <-> exists c : conn, In c conns /\ laddr c = Some port.
Proof.
  rewrite existsb_exists. split; intros (c & Hin & Hc); exists c; (split; [exact Hin |]).
  - unfold conn_on_port in Hc. destruct (laddr c) as [p|]; [| discriminate].
    apply Z.eqb_eq in Hc. congruence.
  - unfold conn_on_port. rewrite Hc. apply Z.eqb_refl.
Qed.

(** X9. The port lookup returns the first process of the table whose
    connections can be read and include the port: the process returned holds
    the port and no process before it does; and it returns nothing exactly
    when no process holds the port.  A process whose connections cannot be
    read is never returned. *)
Theorem first_proc_on_port_spec (procs : list proc) (port : Z) :
  match first_proc_on_port procs port with
  | Some p =>
      exists before after : list proc,
        procs = before ++ p :: after
        /\ holds_port port p
        /\ Forall (fun q => ~ holds_port port q) before
  | None => Forall (fun q => ~ holds_port port q) procs
  end.
Proof.
  induction procs as [|q procs IH]; [constructor |].
  cbn [first_proc_on_port].
  destruct (connections q) as [conns|] eqn:Ec.
  - destruct (existsb (conn_on_port port) conns) eqn:Ex.
    + exists [], procs. split; [reflexivity |]. split; [| constructor].
      exists conns. split; [exact Ec |]. apply conn_on_port_spec. exact Ex.
    + assert (Hq : ~ holds_port port q).
      { intros (conns' & Hc' & Hex). rewrite Ec in Hc'. injection Hc' as <-.
        apply conn_on_port_spec in Hex. congruence. }
      destruct (first_proc_on_port procs port) as [p|].
      * destruct IH as (before & after & -> & Hp & Hbefore).
        exists (q :: before), after. split; [reflexivity |].
        split; [exact Hp |]. constructor; assumption.
      * constructor; assumption.
  - assert (Hq : ~ holds_port port q).
    { intros (conns' & Hc' & _). rewrite Ec in Hc'. discriminate. }
    destruct (first_proc_on_port procs port) as [p|].
    + destruct IH as (before & after & -> & Hp & Hbefore).
      exists (q :: before), after. split; [reflexivity |].
      split; [exact Hp |]. constructor; assumption.
    + constructor; assumption.
Qed.

(** X10. The locate-and-terminate step never raises.  It returns [True]
    exactly when no process holds the port or the one found was killed and
    waited for without an exception, and [False] otherwise; and the only
    process it ever asks to kill is the one the lookup found. *)
Theorem kill_api_on_port_result (port : Z) (w : World) :
  let found := first_proc_on_port (w_procs w (n_procs w)) port in
  exists (b : bool) (evs : list event),
    fst (kill_api_on_port port w) = Ok b
    /\ (b = true
        <-> match found with
            | None => True
            | Some p => w_kill w (pid p) = None /\ w_wait w (pid p) = None
            end)
    /\ w_log (snd (kill_api_on_port port w)) = evs ++ w_log w
    /\ (forall q : Z, In (EvKill q) evs ->
          exists p : proc, found = Some p /\ pid p = q).
Proof.
  cbn zeta.
  unfold kill_api_on_port, find_process_on_port, bind, process_iter, ret.
  destruct (first_proc_on_port (w_procs w (n_procs w)) port) as [p|].
  2:{ exists true, [EvProcessIter]. cbn. repeat split; try tauto.
      intros q [H | []]. discriminate. }
  unfold try_catch, bind, proc_kill, proc_wait. cbn.
  assert (Hk : forall (evs : list event) (q : Z),
             Forall (fun e => e = EvKill (pid p) \/ is_kill_free e = true) evs ->
             In (EvKill q) evs -> exists p0 : proc, Some p = Some p0 /\ pid p0 = q).
  { intros evs q Hevs Hin. rewrite List.Forall_forall in Hevs.
    destruct (Hevs _ Hin) as [H | H]; [| discriminate].
    injection H as ->. exists p. split; reflexivity. }
  destruct (w_kill w (pid p)) as [e|]; cbn.
  - exists false, [EvKill (pid p); EvProcessIter].
    split; [reflexivity |]. split; [split; [discriminate | intros [H _]; discriminate] |].
    split; [reflexivity |]. intros q. apply Hk.
      repeat (apply List.Forall_cons;
                [first [left; reflexivity | right; reflexivity] |]);
        apply List.Forall_nil.
  - destruct (w_wait w (pid p)) as [e|]; cbn.
    + exists false, [EvWait (pid p) 5; EvKill (pid p); EvProcessIter].
      split; [reflexivity |].
      split; [split; [discriminate | intros [_ H]; discriminate] |].
      split; [reflexivity |]. intros q. apply Hk.
      repeat (apply List.Forall_cons;
                [first [left; reflexivity | right; reflexivity] |]);
        apply List.Forall_nil.
    + exists true, [EvSleep (NInt 2); EvWait (pid p) 5; EvKill (pid p); EvProcessIter].
      split; [reflexivity |]. split; [tauto |].
      split; [reflexivity |]. intros q. apply Hk.
      repeat (apply List.Forall_cons;
                [first [left; reflexivity | right; reflexivity] |]);
        apply List.Forall_nil.
Qed.

Lemma poll_once_slept (url : string) (wait_time timeout : pynum) (w : World) :
  sleep_check wait_time = None ->
  fst (poll_once url wait_time timeout w) = Ok (is_200 (w_http w (n_http w) url))
  /\ n_http (snd (poll_once url wait_time timeout w)) = S (n_http w)
  /\ w_http (snd (poll_once url wait_time timeout w)) = w_http w.
Proof.
  intros Hs. destruct (poll_once_spec url wait_time timeout w) as [Hh [[Hne _] | [_ [Hr Hn]]]].
  - contradiction.
  - auto.
Qed.

Lemma existsb_map_S (f : nat -> bool) (l : list nat) :
  existsb f (map S l) = existsb (fun j => f (S j)) l.
Proof. induction l as [|a l IH]; [reflexivity |]. cbn. now rewrite IH. Qed.

Lemma existsb_pointwise (f g : nat -> bool) (l : list nat) :
  (forall j, f j = g j) -> existsb f l = existsb g l.
Proof.
  intros H. induction l as [|a l IH]; [reflexivity |]. cbn. now rewrite H, IH.
Qed.

Lemma poll_loop_slept (url : string) (wait_time timeout : pynum) (n : nat) :
  sleep_check wait_time = None ->
  forall w : World,
    fst (poll_loop url wait_time timeout n w) = Ok (answers_200_within w url n)
    /\ (answers_200_within w url n = false ->
        n_http (snd (poll_loop url wait_time timeout n w)) = (n_http w + n)%nat).
Proof.
  intros Hs. unfold answers_200_within.
  induction n as [|n IH]; intros w.
  - cbn. split; [reflexivity | intros _; lia].
  - cbn [poll_loop]. unfold bind.
    destruct (poll_once_slept url wait_time timeout w Hs) as (Hr & Hn & Hh).
    destruct (poll_once url wait_time timeout w) as [r1 w1].
    cbn [fst snd] in Hr, Hn, Hh. subst r1.
    rewrite <- cons_seq, <- seq_shift. cbn [existsb].
    assert (Hshift : existsb (fun j => is_200 (w_http w (n_http w + j)%nat url))
                       (map S (seq 0 n))
                     = existsb (fun j => is_200 (w_http w1 (n_http w1 + j)%nat url))
                         (seq 0 n)).
    { rewrite existsb_map_S. apply existsb_pointwise. intros j.
      rewrite Hh, Hn. f_equal. f_equal. lia. }
    rewrite Hshift, Nat.add_0_r.
    destruct (is_200 (w_http w (n_http w) url)); cbn [orb].
    + split; [reflexivity | discriminate].
    + destruct (IH w1) as [Hres Hcnt]. split; [exact Hres |].
      intros Hf. rewrite (Hcnt Hf), Hn. lia.
Qed.

(** X11. When the sanitized wait is one [time.sleep] accepts, the
    verification of a configured service returns success exactly when one
    of the first [verify_max_attempts] responses of its health URL is a 200;
    when none is, it has made exactly that many requests before it returns
    failure. *)
Theorem verify_api_health_result
    (api_name : string) (config : service_config) (w : World) :
  dict_get API_SERVICES api_name = Some config ->
  sleep_check verify_wait_time = None ->
  let n := Z.to_nat verify_max_attempts in
  fst (verify_api_health api_name w)
  = Ok (answers_200_within w (health_url config) n)
  /\ (answers_200_within w (health_url config) n = false ->
      n_http (snd (verify_api_health api_name w)) = (n_http w + n)%nat).
Proof.
  intros Hcfg Hs n. unfold verify_api_health. rewrite Hcfg.
  apply poll_loop_slept. exact Hs.
Qed.

Lemma poll_loop_no_sleep (url : string) (wait_time timeout : pynum) (n : nat)
    (w : World) :
  sleep_check wait_time <> None ->
  poll_loop url wait_time timeout n w = (Ok false, w).
Proof.
  intros Hs. induction n as [|n IH]; [reflexivity |].
  cbn [poll_loop]. unfold bind, poll_once, try_catch, time_sleep at 1.
  destruct (sleep_check wait_time); [| contradiction].
  cbn. exact IH.
Qed.

(** X12. A wait configured as NaN passes the sanitization (no comparison
    with NaN holds) and is then refused by every [time.sleep]: the
    verification makes no health request at all and returns failure,
    leaving the world untouched. *)
Theorem nan_wait_never_polls
    (api_name : string) (config : service_config) (w : World) :
  dict_get API_SERVICES api_name = Some config ->
  MONITORING_CONFIG !! "health_check_wait" = Some (VFloat FNaN) ->
  verify_wait_time = NFloat FNaN
  /\ verify_api_health api_name w = (Ok false, w).
Proof.
  intros Hcfg Hk.
  assert (Hw : verify_wait_time = NFloat FNaN).
  { unfold verify_wait_time. rewrite (merged_lookup_set _ _ Hk) by discriminate.
    reflexivity. }
  split; [exact Hw |].
  unfold verify_api_health. rewrite Hcfg, Hw.
  apply poll_loop_no_sleep. discriminate.
Qed.

(** X13. Whatever the monitoring table holds, the three parameters the
    verification loop runs with are sane: at least one attempt, a wait that
    is not negative, a timeout that is not zero or negative. *)
Theorem verify_parameters_sane :
  1 <= verify_max_attempts
  /\ num_lt0 verify_wait_time = false
  /\ num_le0 verify_timeout = false.
Proof.
  split; [apply verify_max_attempts_floor |]. split.
  - unfold verify_wait_time.
    destruct (num_lt0 (_to_float _ _)) eqn:E; [reflexivity | exact E].
  - unfold verify_timeout.
    destruct (num_le0 (_to_float _ _)) eqn:E; [reflexivity | exact E].
Qed.

(** X14. The merged configuration answers a key with the monitoring
    table's value when the table has one that is not [None], and with the
    module's default for that key otherwise: an entry set to [None] never
    hides a default, and keys without a default pass through. *)
Theorem merged_monitoring_config_lookup (key : string) :
  _merged_monitoring_config !! key
  = match MONITORING_CONFIG !! key with
    | Some VNone | None => VInt <$> (DEFAULT_MONITORING_CONFIG !! key)
    | Some v => Some v
    end.
Proof.
  unfold _merged_monitoring_config.
  destruct (MONITORING_CONFIG !! key) as [v|] eqn:Hk.
  - destruct v;
      try (erewrite lookup_union_Some_l;
           [reflexivity
           | apply map_lookup_filter_Some; split; [exact Hk | discriminate]]).
    rewrite lookup_union_r; [apply lookup_fmap |].
    apply map_lookup_filter_None. right. intros v Hv. rewrite Hk in Hv.
    injection Hv as <-. cbn. intros H. apply H. reflexivity.
  - rewrite lookup_union_r; [apply lookup_fmap |].
    apply map_lookup_filter_None. left. exact Hk.
Qed.

(** ** Further properties of the configuration and the remaining nodes *)

Lemma setdefault_lookup (key k : string) (value : pyval) (d : gmap string pyval) :
  setdefault key value d !! k
  = match d !! k with
    | Some v => Some v
    | None => if String.eqb key k then Some value else None
    end.
Proof.
  unfold setdefault. destruct (String.eqb key k) eqn:E.
  - apply String.eqb_eq in E. subst k.
    destruct (d !! key) as [v|] eqn:Hd; [rewrite Hd; reflexivity |].
    rewrite lookup_insert_eq. reflexivity.
  - apply String.eqb_neq in E.
    destruct (d !! key) as [v|] eqn:Hd.
    + destruct (d !! k); reflexivity.
    + rewrite lookup_insert_ne by exact E. destruct (d !! k); reflexivity.
Qed.

(** X15. The defensive defaults of [config.py] never replace a value the
    table already has (not even [None]), give each of the five monitoring
    keys a value when it is missing, and leave every other key as it was;
    the shipped table is the literal table passed through them. *)
Theorem defensive_defaults_lookup (d : gmap string pyval) (key : string) :
  (forall v, d !! key = Some v -> defensive_defaults d !! key = Some v)
  /\ (In key defaulted_keys -> is_Some (defensive_defaults d !! key))
  /\ (~ In key defaulted_keys -> defensive_defaults d !! key = d !! key)
  /\ MONITORING_CONFIG_default
     = defensive_defaults
         (<["check_interval" := VInt 15]>
            (<["restart_delay" := VInt 30]>
               (<["max_restart_attempts" := VInt 3]>
                  (<["health_check_attempts" := VInt 10]>
                     (<["health_check_wait" := VInt 3]>
                        (<["health_check_timeout" := VInt 5]> ∅)))))).
Proof.
  unfold defensive_defaults. repeat split.
  - intros v Hv. rewrite !setdefault_lookup, Hv. reflexivity.
  - intros Hin. rewrite !setdefault_lookup.
    destruct (d !! key) as [v|]; [eexists; reflexivity |].
    cbn in Hin.
    destruct Hin as [<- | [<- | [<- | [<- | [<- | []]]]]]; eexists; reflexivity.
  - intros Hnot. rewrite !setdefault_lookup.
    destruct (d !! key) as [v|]; [reflexivity |].
    repeat match goal with
           | |- context [String.eqb ?a key] =>
               let E := fresh "E" in
               destruct (String.eqb a key) eqn:E;
               [apply String.eqb_eq in E; exfalso; apply Hnot; rewrite <- E;
                cbn; tauto |]
           end.
    reflexivity.
Qed.

Lemma time_sleep_1 (w : World) :
  time_sleep (NInt 1) w = (Ok tt, emit (EvSleep (NInt 1)) w).
Proof. reflexivity. Qed.

Lemma countdown_log (n : nat) (w : World) :
  fst (countdown n w) = Ok tt
  /\ w_log (snd (countdown n w)) = repeat (EvSleep (NInt 1)) n ++ w_log w.
Proof.
  revert w. induction n as [|n IH]; intros w; [split; reflexivity |].
  cbn [countdown]. unfold bind. rewrite time_sleep_1.
  destruct (IH (emit (EvSleep (NInt 1)) w)) as [Hr Hl].
  destruct (countdown n (emit (EvSleep (NInt 1)) w)) as [r w']. cbn [fst snd] in *.
  subst r. split; [reflexivity |]. rewrite Hl.
  change (w_log (emit (EvSleep (NInt 1)) w)) with ([EvSleep (NInt 1)] ++ w_log w).
  rewrite app_assoc, <- repeat_cons. reflexivity.
Qed.

(** X16. With a restart delay that [int()] reads as [d], the restart node
    first sleeps one second [d] times (not at all when [d] is zero or
    negative), then runs the restart workflow once, and returns without
    raising: [restart_attempted] is set and [recovery_status] is "success"
    or "failed" as the workflow returned [True] or [False]. *)
Theorem attempt_restart_waits_then_restarts
    (state : MonitorState) (w : World) (d : Z) :
  py_int int_of_str (monitoring_get "restart_delay" (VInt 30)) = Ok d ->
  let w1 := snd (countdown (Z.to_nat d) w) in
  w_log w1 = repeat (EvSleep (NInt 1)) (Z.to_nat d) ++ w_log w
  /\ exists b : bool,
       fst (restart_specific_api (api_name state) w1) = Ok b
       /\ attempt_restart state w
          = (Ok (set_recovery_status (if b then "success" else "failed")
                   (set_restart_attempted true state)),
             snd (restart_specific_api (api_name state) w1)).
Proof.
  intros Hd w1. subst w1.
  destruct (countdown_log (Z.to_nat d) w) as [Hc Hl].
  split; [exact Hl |].
  destruct (restart_specific_api_never_raises (api_name state)
              (snd (countdown (Z.to_nat d) w))) as [b Hb].
  exists b. split; [exact Hb |].
  unfold attempt_restart. rewrite Hd. unfold bind at 1. cbn [lift_result ret].
  assert (Hnat : Z.to_nat (if d <? 0 then 0 else d) = Z.to_nat d).
  { destruct (d <? 0) eqn:E; [| reflexivity]. apply Z.ltb_lt in E.
    lia. }
  rewrite Hnat. unfold bind at 1.
  destruct (countdown (Z.to_nat d) w) as [rc wc]. cbn [fst snd] in *. subst rc.
  unfold bind, ret.
  destruct (restart_specific_api (api_name state) wc) as [rr wr].
  cbn [fst snd] in *. subst rr. reflexivity.
Qed.

(** The drafting node makes exactly one call of the language model,
    with the recovery prompt when the state's recovery status is "success"
    and the alert prompt otherwise.  An exception of the model is raised
    on; an answer of fewer than three segments raises [IndexError]; any
    other answer succeeds, and then analysis, subject and body are the first
    three segments without their labels and outer whitespace – whatever
    follows a third separator is dropped – and the rest of the state is
    unchanged. *)
Lemma agent_analyze_result (state : MonitorState) (w : World) :
  snd (agent_analyze state w) = after_llm (prompt_of state) w
  /\ fst (agent_analyze state w)
     = match w_llm w (n_llm w) with
       | Raise e => Raise e
       | Ok content =>
           match str_split "---" content with
           | p0 :: p1 :: p2 :: _ =>
               Ok (set_email_body (strip (str_replace "EMAIL_BODY:" "" p2))
                     (set_email_subject (strip (str_replace "SUBJECT:" "" p1))
                        (set_agent_analysis (strip (str_replace "ANALYSIS:" "" p0))
                           state)))
           | _ => Raise index_error
           end
       end.
Proof.
  assert (Hp : (if String.eqb (if is_recovery state then "recovery" else "alert")
                     "alert"
                then AlertPrompt (api_name state) (api_port state) (api_url state)
                       (api_status state) (error_details state)
                else RecoveryPrompt (api_name state) (api_port state))
               = prompt_of state).
  { unfold prompt_of. destruct (is_recovery state); reflexivity. }
  unfold agent_analyze. rewrite Hp.
  unfold bind, llm_invoke, list_index, after_llm, ret, raise. cbn [fst snd].
  destruct (w_llm w (n_llm w)) as [content | e]; [| split; reflexivity].
  destruct (str_split "---" content) as [|p0 [|p1 [|p2 tl]]]; split; reflexivity.
Qed.

(** *** A round over healthy services *)

Lemma for_each_service_healthy (services : list (string * service_config)) :
  forall w : World,
    (forall (n : nat) (url : string), is_200 (w_http w n url) = true) ->
    let w' := snd (for_each_service services w) in
    fst (for_each_service services w) = Ok tt
    /\ w_log w' = probes_of services ++ w_log w
    /\ w_http w' = w_http w
    /\ n_http w' = (n_http w + length services)%nat
    /\ n_llm w' = n_llm w /\ n_smtp w' = n_smtp w
    /\ n_procs w' = n_procs w /\ n_popen w' = n_popen w
    /\ w_stdin w' = w_stdin w.
Proof.
  induction services as [|[name config] services IH]; intros w Hall; cbn zeta.
  - cbn. repeat split. lia.
  - cbn [for_each_service]. unfold bind, graph_invoke.
    destruct (graph_run_healthy (initial_state name config) w (Hall _ _))
      as (st' & -> & _).
    cbn [fst snd initial_state api_url].
    set (w1 := snd (requests_get (health_url config) (NInt 5) w)).
    assert (H1 : w_log w1 = EvHttpGet (health_url config) (NInt 5) :: w_log w
                 /\ w_http w1 = w_http w /\ n_http w1 = S (n_http w)
                 /\ n_llm w1 = n_llm w /\ n_smtp w1 = n_smtp w
                 /\ n_procs w1 = n_procs w /\ n_popen w1 = n_popen w
                 /\ w_stdin w1 = w_stdin w).
    { subst w1. unfold requests_get.
      destruct (w_http w (n_http w) (health_url config)); cbn; repeat split. }
    destruct H1 as (Hl & Hh & Hn & Hllm & Hsm & Hpr & Hpo & Hin).
    assert (Hall1 : forall n url, is_200 (w_http w1 n url) = true)
      by (intros n url; rewrite Hh; apply Hall).
    destruct (IH w1 Hall1) as (Hr & Hl' & Hh' & Hn' & Hllm' & Hsm' & Hpr' & Hpo' & Hin').
    split; [exact Hr |].
    split.
    { rewrite Hl', Hl. unfold probes_of. cbn [map rev snd].
      rewrite <- app_assoc. reflexivity. }
    repeat split; try congruence.
    rewrite Hn', Hn. cbn [length]. lia.
Qed.

(** X17. A round over services that all answer 200 probes every service
    once, in the order of the service table, and does nothing else: no
    draft, no console input, no mail, no process lookup, no launch. *)
Theorem healthy_round_only_probes
    (services : list (string * service_config)) (w : World) :
  (forall (n : nat) (url : string), is_200 (w_http w n url) = true) ->
  let w' := snd (for_each_service services w) in
  fst (for_each_service services w) = Ok tt
  /\ w_log w' = probes_of services ++ w_log w
  /\ n_llm w' = n_llm w /\ n_smtp w' = n_smtp w
  /\ n_procs w' = n_procs w /\ n_popen w' = n_popen w
  /\ w_stdin w' = w_stdin w.
Proof.
  intros Hall.
  destruct (for_each_service_healthy services w Hall)
    as (Hr & Hl & _ & _ & Hllm & Hsm & Hpr & Hpo & Hin).
  cbn zeta. auto 10.
Qed.

(** *** A healthy fleet over several rounds *)

Lemma monitoring_loop_healthy (interval : Z) (ticks : nat) :
  sleep_check (NInt interval) = None ->
  forall w : World,
    (forall (n : nat) (url : string), is_200 (w_http w n url) = true) ->
    let w' := snd (monitoring_loop interval ticks w) in
    fst (monitoring_loop interval ticks w) = Ok tt
    /\ w_log w'
       = concat (repeat (EvSleep (NInt interval) :: probes_of API_SERVICES) ticks)
           ++ w_log w
    /\ n_llm w' = n_llm w /\ n_smtp w' = n_smtp w
    /\ n_procs w' = n_procs w /\ n_popen w' = n_popen w
    /\ w_stdin w' = w_stdin w.
Proof.
  intros Hsleep. induction ticks as [|ticks IH]; intros w Hall; cbn zeta.
  - cbn. repeat split.
  - cbn [monitoring_loop]. unfold bind, time_sleep. rewrite Hsleep.
    destruct (for_each_service_healthy API_SERVICES w Hall)
      as (Hr & Hl & Hh & _ & Hllm & Hsm & Hpr & Hpo & Hin).
    destruct (for_each_service API_SERVICES w) as [r1 w1].
    cbn [fst snd] in *. subst r1. cbv beta iota.
    set (w2 := emit (EvSleep (NInt interval)) w1).
    assert (Hall2 : forall n url, is_200 (w_http w2 n url) = true).
    { intros n url. subst w2. cbn. rewrite Hh. apply Hall. }
    destruct (IH w2 Hall2) as (Hr' & Hl' & Hllm' & Hsm' & Hpr' & Hpo' & Hin').
    split; [exact Hr' |]. split.
    { rewrite Hl'. subst w2. cbn [emit with_state w_log]. rewrite Hl.
      assert (Hcomm : forall (x : list event) k,
                 concat (repeat x k) ++ x = x ++ concat (repeat x k)).
      { intros x k. induction k as [|k IHk]; cbn; [now rewrite app_nil_r |].
        rewrite <- app_assoc, IHk. reflexivity. }
      cbn [repeat concat].
      rewrite <- (Hcomm _ ticks), <- !app_assoc. reflexivity. }
    subst w2. cbn in *. repeat split; congruence.
Qed.

(** X18. With every service answering 200, a check interval that [int()]
    reads as [i], and [max(1, i)] a length [time.sleep] accepts, each round
    of the main loop probes every service once, in table order, and then
    sleeps [max(1, i)] seconds; over any number of rounds nothing else
    happens – no draft, no console input, no mail, no process lookup, no
    launch – and no exception ends the loop. *)
Theorem healthy_fleet_rounds (ticks : nat) (w : World) (i : Z) :
  (forall (n : nat) (url : string), is_200 (w_http w n url) = true) ->
  py_int int_of_str (monitoring_get "check_interval" (VInt 15)) = Ok i ->
  sleep_check (NInt (Z.max 1 i)) = None ->
  let w' := snd (run_monitoring ticks w) in
  fst (run_monitoring ticks w) = Ok tt
  /\ w_log w'
     = concat (repeat (EvSleep (NInt (Z.max 1 i)) :: probes_of API_SERVICES) ticks)
         ++ w_log w
  /\ n_llm w' = n_llm w /\ n_smtp w' = n_smtp w
  /\ n_procs w' = n_procs w /\ n_popen w' = n_popen w
  /\ w_stdin w' = w_stdin w.
Proof.
  intros Hall Hi Hsleep.
  assert (Hclamp : (if i <? 1 then 1 else i) = Z.max 1 i).
  { destruct (i <? 1) eqn:E; [apply Z.ltb_lt in E | apply Z.ltb_ge in E]; lia. }
  assert (Hrun : run_monitoring ticks w = monitoring_loop (Z.max 1 i) ticks w).
  { unfold run_monitoring. rewrite Hi. unfold bind. cbn [lift_result ret].
    rewrite Hclamp. reflexivity. }
  rewrite Hrun. apply monitoring_loop_healthy; assumption.
Qed.

(** *** The order of the restart workflow *)

Lemma kill_api_on_port_log (p : Z) (w : World) :
  exists evs : list event,
    w_log (snd (kill_api_on_port p w)) = evs ++ w_log w
    /\ forallb is_lookup_or_kill evs = true
    /\ w_executable (snd (kill_api_on_port p w)) = w_executable w.
Proof.
  unfold kill_api_on_port, find_process_on_port, bind, process_iter, ret.
  destruct (first_proc_on_port _ _) as [pr|];
    [| exists [EvProcessIter]; repeat split].
  unfold try_catch, bind, proc_kill, proc_wait. cbn.
  destruct (w_kill _ _); cbn;
    [exists [EvKill (pid pr); EvProcessIter]; repeat split |].
  destruct (w_wait _ _); cbn.
  - exists [EvWait (pid pr) 5; EvKill (pid pr); EvProcessIter]. repeat split.
  - exists [EvSleep (NInt 2); EvWait (pid pr) 5; EvKill (pid pr); EvProcessIter].
    repeat split.
Qed.

Lemma start_specific_api_command
    (api_name : string) (config : service_config) (w : World) :
  dict_get API_SERVICES api_name = Some config ->
  w_log (snd (start_specific_api api_name w))
  = EvPopen (launch_command w config)
      (if w_os_nt w then NewConsoleAndGroup else NewSession) :: w_log w.
Proof.
  intros Hcfg. unfold start_specific_api. rewrite Hcfg.
  unfold try_catch, bind, sys_executable, os_name_is_nt, popen, ret, launch_command.
  destruct (w_popen _ _ _); reflexivity.
Qed.

Lemma poll_loop_log (url : string) (wait_time timeout : pynum) (n : nat) :
  forall w : World,
    exists evs : list event,
      w_log (snd (poll_loop url wait_time timeout n w)) = evs ++ w_log w
      /\ forallb is_poll evs = true.
Proof.
  induction n as [|n IH]; intros w; [exists []; split; reflexivity |].
  cbn [poll_loop]. unfold bind.
  assert (Honce : exists evs1,
             w_log (snd (poll_once url wait_time timeout w)) = evs1 ++ w_log w
             /\ forallb is_poll evs1 = true).
  { unfold poll_once, try_catch, bind, time_sleep, requests_get, ret.
    destruct (sleep_check wait_time); [exists []; split; reflexivity |].
    cbn. destruct (w_http w (n_http w) url); cbn;
      exists [EvHttpGet url timeout; EvSleep wait_time]; split; reflexivity. }
  destruct Honce as (evs1 & Hl1 & Hp1).
  destruct (poll_once url wait_time timeout w) as [[[|]|e] w1]; cbn [snd] in *.
  - exists evs1. split; assumption.
  - destruct (IH w1) as (evs & Hl & Hp). exists (evs ++ evs1).
    rewrite Hl, Hl1, <- app_assoc. split; [reflexivity |].
    rewrite forallb_app, Hp, Hp1. reflexivity.
  - exists evs1. split; assumption.
Qed.

(** X19. The restart of a configured service keeps its steps in order:
    first the process lookup and, if a process was found, the kill; then
    exactly one launch, of uvicorn on the service's module and port with the
    flags of the platform; and only after the launch the sleeps and health
    requests of the verification.  No health request precedes the launch
    and no second launch follows a failed verification. *)
Theorem restart_specific_api_order
    (api_name : string) (config : service_config) (w : World) :
  dict_get API_SERVICES api_name = Some config ->
  exists kills polls : list event,
    w_log (snd (restart_specific_api api_name w))
    = polls
        ++ EvPopen (launch_command w config)
             (if w_os_nt w then NewConsoleAndGroup else NewSession)
        :: kills ++ w_log w
    /\ forallb is_lookup_or_kill kills = true
    /\ forallb is_poll polls = true.
Proof.
  intros Hcfg. unfold restart_specific_api. rewrite Hcfg. unfold bind at 1.
  destruct (kill_api_on_port_log (port config) w) as (kills & Hk & Hkf & Hexe).
  destruct (kill_api_on_port_never_raises (port config) w) as [b Hb].
  assert (Hos : w_os_nt (snd (kill_api_on_port (port config) w)) = w_os_nt w).
  { unfold kill_api_on_port, find_process_on_port, bind, process_iter, ret.
    destruct (first_proc_on_port _ _) as [pr|]; [| reflexivity].
    unfold try_catch, bind, proc_kill, proc_wait. cbn.
    destruct (w_kill _ _); cbn; [reflexivity |].
    destruct (w_wait _ _); reflexivity. }
  destruct (kill_api_on_port (port config) w) as [rk wk]. cbn [fst snd] in *.
  subst rk. unfold bind at 1.
  pose proof (start_specific_api_command api_name config wk Hcfg) as Hs.
  destruct (start_specific_api_never_raises api_name wk) as [h [Hh _]].
  destruct (start_specific_api api_name wk) as [rs ws]. cbn [fst snd] in *.
  subst rs. exists kills.
  assert (Hlaunch : launch_command wk config = launch_command w config)
    by (unfold launch_command; rewrite Hexe; reflexivity).
  rewrite Hlaunch, Hos, Hk in Hs.
  destruct h as [hp|].
  - unfold bind, ret, verify_api_health. rewrite Hcfg.
    destruct (poll_loop_log (health_url config) verify_wait_time verify_timeout
                (Z.to_nat verify_max_attempts) ws) as (polls & Hp & Hpf).
    destruct (poll_loop _ _ _ _ ws) as [[v|e] wv]; cbn [snd] in *;
      exists polls; rewrite Hp, Hs; repeat split; assumption.
  - exists []. unfold ret. cbn [snd app]. rewrite Hs. repeat split; assumption.
Qed.

(** ** email_webhook.py *)











End Source.

(** ** Properties over varying configurations *)

(** C4. With [health_check_attempts] configured as 0 the verification uses 1
    attempt, with [health_check_wait] configured as -5 it waits 0.0, with
    [health_check_timeout] configured as 0 it uses the default 5.0; and
    whatever the configuration, the verification of a configured service
    makes at most the sanitized number of requests, stops at the first 200
    response and returns success exactly then. *)
Theorem verification_sanitizes_and_polls
    (int_of_str : string -> option Z) (float_of_str : string -> option pyfloat)
    (API_SERVICES : list (string * service_config))
    (MONITORING_CONFIG : gmap string pyval)
    (api_name : string) (config : service_config) (w : World) :
  dict_get API_SERVICES api_name = Some config ->
  verify_max_attempts int_of_str
    (<["health_check_attempts" := VInt 0]> MONITORING_CONFIG) = 1
  /\ verify_wait_time float_of_str
       (<["health_check_wait" := VInt (-5)]> MONITORING_CONFIG) = NFloat (FFin 0)
  /\ verify_timeout float_of_str
       (<["health_check_timeout" := VInt 0]> MONITORING_CONFIG) = NFloat (FFin 5)
  /\ exists (b : bool) (k : nat),
       let run := verify_api_health int_of_str float_of_str API_SERVICES
                    MONITORING_CONFIG api_name w in
       fst run = Ok b
       /\ (k <= Z.to_nat (verify_max_attempts int_of_str MONITORING_CONFIG))%nat
       /\ n_http (snd run) = (n_http w + k)%nat
       /\ (forall j : nat, (j + (if b then 1 else 0) < k)%nat ->
             is_200 (w_http w (n_http w + j)%nat (health_url config)) = false)
       /\ (b = true ->
             exists j : nat, k = S j
               /\ is_200 (w_http w (n_http w + j)%nat (health_url config)) = true).
Proof.
  intros Hcfg.
  split; [apply sanitize_attempts_0, lookup_insert_eq |].
  split; [apply sanitize_wait_minus_5, lookup_insert_eq |].
  split; [apply sanitize_timeout_0, lookup_insert_eq |].
  apply verify_api_health_polls. exact Hcfg.
Qed.

(** ** The program on the sample worlds *)

(** C1. With the shipped configuration, a service that is down and a model
    answer of two segments, the [IndexError] of the drafting node is caught
    nowhere: it leaves [graph.invoke] and ends the monitoring loop in its
    first round, however many rounds were to follow. *)
Theorem drafting_failure_ends_monitoring_loop :
  fst (graph_invoke sample_int_of_str sample_float_of_str API_SERVICES_default
         MONITORING_CONFIG_default
         (initial_state "Multiply API"
            (ServiceConfig 8001 "http://localhost:8001/health"
               "http://localhost:8001/multiply?a=5&b=3" "multiply_app:app"))
         world_short_alert_draft)
  = Raise index_error
  /\ forall ticks : nat,
       fst (run_monitoring sample_int_of_str sample_float_of_str API_SERVICES_default
              MONITORING_CONFIG_default (S ticks) world_short_alert_draft)
       = Raise index_error.
Proof.
  split; [vm_compute; reflexivity |].
  intros ticks. apply (run_monitoring_raises _ _ _ _ ticks _ _ 15).
  - vm_compute. reflexivity.
  - vm_compute. reflexivity.
Qed.

(** C2, the claim as written fails: the recovery draft of this pass has two
    segments and the pass ends at the recovery drafting node, yet the alert
    of the same pass was delivered before. *)
Lemma short_recovery_draft_after_alert_was_sent :
  let run := graph_run sample_int_of_str sample_float_of_str API_SERVICES_default
               MONITORING_CONFIG_default
               (initial_state "Addition API" addition_api)
               world_short_recovery_draft in
  w_llm world_short_recovery_draft 1%nat = Ok short_draft
  /\ length (str_split "---" short_draft) = 2%nat
  /\ trace_nodes (fst run)
     = [check_health; analyze_alert; human_review_alert; send_alert_email;
        attempt_restart_node; analyze_recovery]
  /\ fst (snd run) = Raise index_error
  /\ count_events is_mail (w_log (snd (snd run))) = 1%nat.
Proof. vm_compute. repeat split. Qed.

(** The pass whose alert draft has two segments. *)
Lemma malformed_draft_aborts_pass_witness :
  let run := graph_run sample_int_of_str sample_float_of_str API_SERVICES_default
               MONITORING_CONFIG_default
               (initial_state "Addition API" addition_api)
               world_short_alert_draft in
  trace_nodes (fst run) = [check_health; analyze_alert]
  /\ fst (snd run) = Raise index_error
  /\ n_smtp (snd (snd run)) = n_smtp world_short_alert_draft
  /\ List.filter is_mail (w_log (snd (snd run)))
     = List.filter is_mail (w_log world_short_alert_draft).
Proof.
  refine (proj2 (proj2 (malformed_draft_aborts_pass sample_int_of_str
                          sample_float_of_str API_SERVICES_default
                          MONITORING_CONFIG_default
                          world_short_alert_draft short_draft _ _))
            (initial_state "Addition API" addition_api) _).
  - reflexivity.
  - vm_compute. lia.
  - reflexivity.
Defined.

(** C3, the claim as written fails: the incumbent cannot be killed, the
    termination step reports failure, and still the restart goes on to
    launch and to verification (one health request) and returns success. *)
Lemma kill_failure_does_not_stop_restart :
  let run := restart_specific_api sample_int_of_str sample_float_of_str
               API_SERVICES_default MONITORING_CONFIG_default
               "Addition API" world_kill_denied in
  fst (kill_api_on_port 8002 world_kill_denied) = Ok false
  /\ fst run = Ok true
  /\ count_events is_popen (w_log (snd run)) = 1%nat
  /\ count_events is_http (w_log (snd run)) = 1%nat.
Proof. vm_compute. repeat split. Qed.

(** The restart of the Addition API in the world where the kill is denied. *)
Lemma restart_succeeds_iff_launched_and_verified_witness :
  exists b : bool, fst (kill_api_on_port 8002 world_kill_denied) = Ok b.
Proof.
  exact (proj1 (restart_succeeds_iff_launched_and_verified
                  sample_int_of_str sample_float_of_str API_SERVICES_default
                  MONITORING_CONFIG_default "Addition API" addition_api
                  world_kill_denied eq_refl)).
Defined.

(** The three sanitized values over the shipped configuration. *)
Lemma verification_sanitizes_and_polls_witness :
  verify_max_attempts sample_int_of_str
    (<["health_check_attempts" := VInt 0]> MONITORING_CONFIG_default) = 1
  /\ verify_wait_time sample_float_of_str
       (<["health_check_wait" := VInt (-5)]> MONITORING_CONFIG_default)
     = NFloat (FFin 0)
  /\ verify_timeout sample_float_of_str
       (<["health_check_timeout" := VInt 0]> MONITORING_CONFIG_default)
     = NFloat (FFin 5).
Proof.
  destruct (verification_sanitizes_and_polls sample_int_of_str sample_float_of_str
              API_SERVICES_default MONITORING_CONFIG_default
              "Addition API" addition_api world_port_free eq_refl)
    as (H1 & H2 & H3 & _).
  exact (conj H1 (conj H2 H3)).
Defined.

(** C5. The monitor reads its two parameters with a bare [int(...)]: with
    the restart delay configured as "abc" the restart node raises
    [ValueError] before anything is done, and with the check interval
    configured as "abc" the main loop raises before its first round.  The
    restart manager reading a parameter configured the same way falls back
    to its default. *)
Theorem non_numeric_delay_or_interval_raises :
  (forall (state : MonitorState) (w : World),
      attempt_restart sample_int_of_str sample_float_of_str API_SERVICES_default
        (<["restart_delay" := VStr "abc"]> MONITORING_CONFIG_default) state w
      = (Raise (Exn ValueError ""), w))
  /\ (forall (ticks : nat) (w : World),
        run_monitoring sample_int_of_str sample_float_of_str API_SERVICES_default
          (<["check_interval" := VStr "abc"]> MONITORING_CONFIG_default) ticks w
        = (Raise (Exn ValueError ""), w))
  /\ verify_max_attempts sample_int_of_str
       (<["health_check_attempts" := VStr "abc"]> MONITORING_CONFIG_default) = 10.
Proof.
  split; [| split].
  - intros state w. apply attempt_restart_bad_delay. vm_compute. reflexivity.
  - intros ticks w. apply run_monitoring_bad_interval. vm_compute. reflexivity.
  - vm_compute. reflexivity.
Qed.

(** The entry of the alert send step in the pass where the operator rejects. *)
Lemma rejected_alert_not_sent_restart_follows_witness :
  let s0 := initial_state "Addition API" addition_api in
  let tr := fst (graph_run sample_int_of_str sample_float_of_str API_SERVICES_default
                   MONITORING_CONFIG_default s0 world_alert_rejected) in
  let e := nth 3 tr (check_health, s0, world_alert_rejected) in
  send_email_action (snd (fst e)) (snd e)
  = (Ok (set_action_taken "Email cancelled by user ❌" (snd (fst e))), snd e).
Proof.
  intros s0 tr e.
  refine (proj1 (rejected_alert_not_sent_restart_follows
                   sample_int_of_str sample_float_of_str API_SERVICES_default
                   MONITORING_CONFIG_default s0 world_alert_rejected
                   (snd (fst e)) (snd e) _ _)).
  - vm_compute. do 3 right. left. reflexivity.
  - vm_compute. reflexivity.
Defined.

(** The restart of the Addition API with the port free and with the port
    held by a process that can be killed. *)
Lemma restart_same_without_process_or_after_kill_witness :
  fst (restart_specific_api sample_int_of_str sample_float_of_str
         API_SERVICES_default MONITORING_CONFIG_default "Addition API" world_port_free)
  = fst (restart_specific_api sample_int_of_str sample_float_of_str
           API_SERVICES_default MONITORING_CONFIG_default "Addition API" world_port_held).
Proof.
  refine (proj1 (proj2 (proj2 (restart_same_without_process_or_after_kill
            sample_int_of_str sample_float_of_str API_SERVICES_default
            MONITORING_CONFIG_default "Addition API" addition_api
            world_port_free world_port_held incumbent _ _ _ _ _ _)))).
  - reflexivity.
  - repeat split.
  - reflexivity.
  - reflexivity.
  - reflexivity.
  - reflexivity.
Defined.

(** A name that the shipped service table does not have. *)
Lemma unknown_api_is_refused_witness :
  restart_specific_api sample_int_of_str sample_float_of_str API_SERVICES_default
    MONITORING_CONFIG_default "Subtraction API" world_port_free
  = (Ok false, world_port_free).
Proof.
  exact (proj1 (unknown_api_is_refused sample_int_of_str sample_float_of_str
                  API_SERVICES_default MONITORING_CONFIG_default
                  "Subtraction API" world_port_free eq_refl)).
Defined.

(** ** The further properties on the sample worlds *)

(** The pass over the Addition API when every service answers 200. *)
Lemma healthy_pass_only_probes_witness :
  trace_nodes
    (fst (graph_run sample_int_of_str sample_float_of_str API_SERVICES_default
            MONITORING_CONFIG_default (initial_state "Addition API" addition_api)
            world_all_healthy))
  = [check_health].
Proof.
  refine (proj1 (healthy_pass_only_probes sample_int_of_str sample_float_of_str
                   API_SERVICES_default MONITORING_CONFIG_default
                   (initial_state "Addition API" addition_api)
                   world_all_healthy _)).
  reflexivity.
Defined.

(** The pass in which the operator rejects the alert and the service stays
    down ends after the restart node. *)
Lemma pass_ends_in_one_of_three_ways_witness :
  exists st : MonitorState,
    fst (snd (graph_run sample_int_of_str sample_float_of_str API_SERVICES_default
                MONITORING_CONFIG_default
                (initial_state "Addition API" addition_api) world_alert_rejected))
    = Ok st
    /\ (trace_nodes
          (fst (graph_run sample_int_of_str sample_float_of_str
                  API_SERVICES_default MONITORING_CONFIG_default
                  (initial_state "Addition API" addition_api)
                  world_alert_rejected))
        = [check_health; analyze_alert; human_review_alert; send_alert_email;
           attempt_restart_node]
        /\ recovery_status st = "failed").
Proof.
  eexists. split; [vm_compute; reflexivity |].
  destruct (pass_ends_in_one_of_three_ways sample_int_of_str sample_float_of_str
              API_SERVICES_default MONITORING_CONFIG_default
              (initial_state "Addition API" addition_api) world_alert_rejected
              _ ltac:(vm_compute; reflexivity))
    as [[Ht _] | [(Ht & _ & _ & Hs) | [Ht _]]].
  - vm_compute in Ht. discriminate.
  - split; [exact Ht | exact Hs].
  - vm_compute in Ht. discriminate.
Defined.

(** The operator types a new body of two lines and approves. *)
Lemma human_review_edit_body_then_approve_witness :
  w_stdin (snd (human_review (initial_state "Addition API" addition_api)
                  world_edit_body))
  = ["2"].
Proof.
  refine (proj2 (human_review_edit_body_then_approve
                   (initial_state "Addition API" addition_api) world_edit_body
                   ["Hi Team,"; "the service is being restarted."] ["2"] _ _)).
  - repeat constructor; discriminate.
  - reflexivity.
Defined.

(** An approved alert is delivered once; the second run of the send step
    finds the flag set. *)
Lemma send_email_action_twice_witness :
  let state := set_human_approval "approved"
                 (initial_state "Addition API" addition_api) in
  let state1 := set_email_sent true
                  (set_action_taken "Email sent successfully ✅" state) in
  let w1 := snd (send_email_action state world_alert_rejected) in
  send_email_action state1 w1 = (Ok state1, w1).
Proof.
  intros state state1 w1.
  refine (send_email_action_twice state state1 world_alert_rejected w1 _ _);
    reflexivity.
Defined.

Lemma sent_flag_means_approved_and_delivered_witness :
  let state := set_human_approval "approved"
                 (initial_state "Addition API" addition_api) in
  w_smtp world_alert_rejected (n_smtp world_alert_rejected) = None.
Proof.
  intros state.
  refine (proj1 (proj2 (sent_flag_means_approved_and_delivered state
            (set_email_sent true
               (set_action_taken "Email sent successfully ✅" state))
            world_alert_rejected
            (snd (send_email_action state world_alert_rejected)) _ _ _)));
    reflexivity.
Defined.

(** The shipped configuration, the new instance answering at its second
    request. *)
Lemma verify_api_health_result_witness :
  fst (verify_api_health sample_int_of_str sample_float_of_str API_SERVICES_default
         MONITORING_CONFIG_default "Addition API" world_port_free)
  = Ok true.
Proof.
  refine (proj1 (verify_api_health_result sample_int_of_str sample_float_of_str
                   API_SERVICES_default MONITORING_CONFIG_default
                   "Addition API" addition_api world_port_free _ _)).
  - reflexivity.
  - vm_compute. reflexivity.
Defined.

(** The shipped configuration with the wait replaced by NaN. *)
Lemma nan_wait_never_polls_witness :
  verify_api_health sample_int_of_str sample_float_of_str API_SERVICES_default
    (<["health_check_wait" := VFloat FNaN]> MONITORING_CONFIG_default)
    "Addition API" world_all_healthy
  = (Ok false, world_all_healthy).
Proof.
  refine (proj2 (nan_wait_never_polls sample_int_of_str sample_float_of_str
                   API_SERVICES_default
                   (<["health_check_wait" := VFloat FNaN]> MONITORING_CONFIG_default)
                   "Addition API" addition_api world_all_healthy _ _)).
  - reflexivity.
  - vm_compute. reflexivity.
Defined.

(** The shipped restart delay of 30 seconds. *)
Lemma attempt_restart_waits_then_restarts_witness :
  w_log (snd (countdown 30 world_port_free))
  = repeat (EvSleep (NInt 1)) 30 ++ w_log world_port_free.
Proof.
  refine (proj1 (attempt_restart_waits_then_restarts sample_int_of_str
                   sample_float_of_str API_SERVICES_default
                   MONITORING_CONFIG_default
                   (initial_state "Addition API" addition_api)
                   world_port_free 30 _)).
  vm_compute. reflexivity.
Defined.

(** One round over the three shipped services, all healthy. *)
Lemma healthy_round_only_probes_witness :
  fst (for_each_service sample_int_of_str sample_float_of_str API_SERVICES_default
         MONITORING_CONFIG_default API_SERVICES_default world_all_healthy)
  = Ok tt.
Proof.
  refine (proj1 (healthy_round_only_probes sample_int_of_str sample_float_of_str
                   API_SERVICES_default MONITORING_CONFIG_default
                   API_SERVICES_default world_all_healthy _)).
  intros n url. reflexivity.
Defined.

(** Four rounds of the main loop over the healthy fleet, interval 15. *)
Lemma healthy_fleet_rounds_witness :
  fst (run_monitoring sample_int_of_str sample_float_of_str API_SERVICES_default
         MONITORING_CONFIG_default 4 world_all_healthy)
  = Ok tt.
Proof.
  refine (proj1 (healthy_fleet_rounds sample_int_of_str sample_float_of_str
                   API_SERVICES_default MONITORING_CONFIG_default
                   4 world_all_healthy 15 _ _ _)).
  - intros n url. reflexivity.
  - vm_compute. reflexivity.
  - vm_compute. reflexivity.
Defined.

(** The restart of the Addition API with the port held. *)
Lemma restart_specific_api_order_witness :
  exists kills polls : list event,
    w_log (snd (restart_specific_api sample_int_of_str sample_float_of_str
                  API_SERVICES_default MONITORING_CONFIG_default
                  "Addition API" world_port_held))
    = polls
        ++ EvPopen (launch_command world_port_held addition_api) NewSession
        :: kills ++ w_log world_port_held
    /\ forallb is_lookup_or_kill kills = true
    /\ forallb is_poll polls = true.
Proof.
  exact (restart_specific_api_order sample_int_of_str sample_float_of_str
           API_SERVICES_default MONITORING_CONFIG_default
           "Addition API" addition_api world_port_held eq_refl).
Defined.

